(** * stock_analysis_app: the indicator calculator, the page script and the
      CSV export, verified against the dashboard's specification.

    The program is one Streamlit script, [stock_analysis_app.py].  Every
    computation of it is a call into a library; the embedding follows the
    script line by line and models each library call it makes:

    - a float64 is an ideal real number or NaN ([double := option R]): the
      rounding and the infinities of binary64 are abstracted away, NaN and its
      propagation are kept;
    - [Series.rolling(window).mean() / .std()] follow pandas' contract
      (trailing window, [min_periods = window], sample deviation [ddof = 1]);
    - [talib.RSI] follows TA-Lib's [TA_RSI] and its Python wrapper (Wilder
      smoothing, look-back of [timeperiod] samples, period range 2..100000);
    - [DataFrame.to_csv] follows pandas' defaults (header and index
      written, minimal quoting, [os.linesep] between rows); a cell is written
      as its column's dtype writes the number (float64 prices, int64 volume);
      what the written text holds is stated through a CSV reader that shares
      nothing with the writer;
    - Streamlit and Plotly calls are recorded, in order, in the run's log;
      the values of the widgets are the inputs of a run;
    - [st.cache_data] only memoises the three helpers and is left out: a call
      is a call. *)

From Stdlib Require Import Strings.String Strings.Ascii Strings.Byte DecimalString.
From Stdlib Require Import List Bool Arith ZArith Lia.
From Stdlib Require Import Reals Lra.
Import ListNotations.

Set Implicit Arguments.

(** ** Python faults and the error monad of library calls *)

Inductive fault : Type :=
| TypeError (msg : string)
| KeyError (key : string)
| ConnectionError
| ProviderError
| TA_BAD_PARAM.

Inductive result (A : Type) : Type :=
| Ok (a : A)
| Raise (e : fault).

Arguments Ok {A} a.
Arguments Raise {A} e.

(** ** float64 values: an ideal real or NaN *)

Module Float.

Definition double : Type := option R.
Definition NaN : double := None.

Definition of_R (x : R) : double := Some x.
Definition of_nat (n : nat) : double := Some (INR n).

Definition lift2 (f : R -> R -> R) (a b : double) : double :=
  match a, b with
  | Some x, Some y => Some (f x y)
  | _, _ => None
  end.

Definition add : double -> double -> double := lift2 Rplus.
Definition sub : double -> double -> double := lift2 Rminus.
Definition mul : double -> double -> double := lift2 Rmult.
Definition div : double -> double -> double := lift2 Rdiv.

(** [a < b] on floats: false as soon as one side is NaN. *)
Definition ltb (a b : double) : bool :=
  match a, b with
  | Some x, Some y => if Rlt_dec x y then true else false
  | _, _ => false
  end.

Definition is_nan (a : double) : bool :=
  match a with Some _ => false | None => true end.

End Float.

Import Float.

(** ** pandas: Series and rolling windows *)

Module Pandas.

(** A float64 column: one cell per row, NaN for a missing value. *)
Definition Series : Type := list double.

(** The non-missing observations of a window, in order. *)
Fixpoint observations (l : list double) : list R :=
  match l with
  | [] => []
  | Some x :: l' => x :: observations l'
  | None :: l' => observations l'
  end.

Definition sum (l : list R) : R := fold_right Rplus 0%R l.

(** Rows [max 0 (i+1-window) .. i] of the series: the trailing window that
    ends at row [i]. *)
Definition window_at (window : nat) (s : Series) (i : nat) : list double :=
  let start := S i - window in
  firstn (S i - start) (skipn start s).

(** [calc_mean]: the mean of the observations when there are at least
    [minp] of them (and at least one), NaN otherwise. *)
Definition calc_mean (minp : nat) (obs : list R) : double :=
  let nobs := length obs in
  if (minp <=? nobs) && (0 <? nobs)
  then Some (sum obs / INR nobs)%R
  else NaN.

(** Sum of squared deviations from the mean. *)
Definition ssqdm (obs : list R) : R :=
  let m := (sum obs / INR (length obs))%R in
  sum (map (fun x => ((x - m) * (x - m))%R) obs).

(** [calc_var]: the variance with [ddof] delta degrees of freedom when there
    are at least [minp] observations and more than [ddof], NaN otherwise. *)
Definition calc_var (minp ddof : nat) (obs : list R) : double :=
  let nobs := length obs in
  if (minp <=? nobs) && (ddof <? nobs)
  then Some (ssqdm obs / (INR nobs - INR ddof))%R
  else NaN.

Definition zsqrt (v : double) : double :=
  match v with Some x => Some (sqrt x) | None => None end.

(** [s.rolling(window=window).mean()]; [min_periods] defaults to [window]. *)
Definition rolling_mean (window : nat) (s : Series) : Series :=
  map (fun i => calc_mean window (observations (window_at window s i)))
      (seq 0 (length s)).

(** [s.rolling(window=window).std()]: [ddof = 1]. *)
Definition rolling_std (window : nat) (s : Series) : Series :=
  map (fun i => zsqrt (calc_var window 1 (observations (window_at window s i))))
      (seq 0 (length s)).

(** Element-wise arithmetic of two series over the same index, and of a
    scalar with a series. *)
Definition series_add (a b : Series) : Series :=
  map (fun p => add (fst p) (snd p)) (combine a b).
Definition series_sub (a b : Series) : Series :=
  map (fun p => sub (fst p) (snd p)) (combine a b).
Definition scalar_mul (k : double) (s : Series) : Series :=
  map (mul k) s.

End Pandas.

Import Pandas.

(** ** TA-Lib: the relative strength index *)

Module Talib.

Definition TA_EPSILON : R := (/ 100000000000000)%R.

Definition TA_IS_ZERO (v : double) : bool :=
  ltb (of_R (- TA_EPSILON)) v && ltb v (of_R TA_EPSILON).

(** One output sample: [100 * gain / (gain + loss)], or [0] when the sum is
    zero (the test of [ta_RSI.c] up to TA-Lib 0.6). *)
Definition rsi_sample (prevGain prevLoss : double) : double :=
  let tempValue1 := add prevGain prevLoss in
  if negb (TA_IS_ZERO tempValue1)
  then mul (of_R 100) (div prevGain tempValue1)
  else of_R 0.

(** The state of [TA_RSI]'s loops: the previous price and Wilder's two
    running averages. *)
Record rsi_state : Type := mk_rsi_state {
  prevValue : double;
  prevGain : double;
  prevLoss : double
}.

(** The initial loop, [for (i = optInTimePeriod; i > 0; i--)]: the gains and
    the losses of the first [i] price changes are summed. *)
Fixpoint accumulate (i : nat) (inReal : list double) (st : rsi_state)
  : list double * rsi_state :=
  match i, inReal with
  | S i', tempValue1 :: rest =>
      let tempValue2 := sub tempValue1 (prevValue st) in
      if ltb tempValue2 (of_R 0)
      then accumulate i' rest
             (mk_rsi_state tempValue1 (prevGain st) (sub (prevLoss st) tempValue2))
      else accumulate i' rest
             (mk_rsi_state tempValue1 (add (prevGain st) tempValue2) (prevLoss st))
  | _, _ => (inReal, st)
  end.

(** The main loop, [while (today <= endIdx)]: Wilder's smoothing, one output
    per remaining price. *)
Fixpoint smooth (period : double) (inReal : list double) (st : rsi_state)
  : list double :=
  match inReal with
  | [] => []
  | tempValue1 :: rest =>
      let tempValue2 := sub tempValue1 (prevValue st) in
      let l := mul (prevLoss st) (sub period (of_R 1)) in
      let g := mul (prevGain st) (sub period (of_R 1)) in
      let l' := if ltb tempValue2 (of_R 0) then sub l tempValue2 else l in
      let g' := if ltb tempValue2 (of_R 0) then g else add g tempValue2 in
      let st' := mk_rsi_state tempValue1 (div g' period) (div l' period) in
      rsi_sample (prevGain st') (prevLoss st') :: smooth period rest st'
  end.

(** [TA_RSI(0, endIdx, inReal, optInTimePeriod, ...)]: the samples written
    from [outReal[0]] on, or the return code [TA_BAD_PARAM]. *)
Definition TA_RSI (inReal : list double) (optInTimePeriod : nat)
  : result (list double) :=
  if (Z.of_nat optInTimePeriod <? 2)%Z || (100000 <? Z.of_nat optInTimePeriod)%Z
  then Raise TA_BAD_PARAM
  else
    (* startIdx = lookbackTotal = optInTimePeriod; endIdx = length - 1 *)
    if length inReal <=? optInTimePeriod then Ok []
    else
      match inReal with
      | [] => Ok []
      | first :: rest =>
          let period := of_nat optInTimePeriod in
          let '(rest', st) :=
            accumulate optInTimePeriod rest
              (mk_rsi_state first (of_R 0) (of_R 0)) in
          let st0 :=
            mk_rsi_state (prevValue st) (div (prevGain st) period)
              (div (prevLoss st) period) in
          Ok (rsi_sample (prevGain st0) (prevLoss st0) :: smooth period rest' st0)
      end.

(** [check_begidx1]: the index of the first value that is not NaN; the
    wrapper starts there.  (On an array of NaNs only the wrapper starts at
    its last cell; the result is the same array of NaNs.) *)
Fixpoint leading_nans (real : list double) : nat :=
  match real with
  | None :: rest => S (leading_nans rest)
  | _ => 0
  end.

(** [talib.RSI(real, timeperiod)]: an array as long as [real], NaN over the
    leading NaNs and the look-back, then [TA_RSI]'s samples. *)
Definition RSI (real : Series) (timeperiod : nat) : result Series :=
  let begidx := leading_nans real in
  let lookback := begidx + timeperiod in
  match TA_RSI (skipn begidx real) timeperiod with
  | Raise e => Raise e
  | Ok out => Ok (repeat NaN (Nat.min lookback (length real)) ++ out)
  end.

End Talib.

(** ** The indicator calculator of the script (lines 96-133) *)

Module Indicators.

(** [talib.RSI(df['Close'], timeperiod = rsi_periods)] *)
Definition rsi (close : Series) (rsi_periods : nat) : result Series :=
  Talib.RSI close rsi_periods.

(** [df['Close'].rolling(window=sma_periods).mean()] *)
Definition sma (close : Series) (sma_periods : nat) : Series :=
  rolling_mean sma_periods close.

(** The Bollinger bands of lines 130-133, as (upper_band, lower_band). *)
Definition bollinger (close : Series) (bb_periods : nat) (bb_std : double)
  : Series * Series :=
  let rolling_mean := rolling_mean bb_periods close in
  let rolling_std := rolling_std bb_periods close in
  let upper_band := series_add rolling_mean (scalar_mul bb_std rolling_std) in
  let lower_band := series_sub rolling_mean (scalar_mul bb_std rolling_std) in
  (upper_band, lower_band).

Definition upper_band (close : Series) (bb_periods : nat) (bb_std : double) : Series :=
  fst (bollinger close bb_periods bb_std).
Definition lower_band (close : Series) (bb_periods : nat) (bb_std : double) : Series :=
  snd (bollinger close bb_periods bb_std).

End Indicators.

(** ** Python values of the script: dates, text, bytes *)

Module Py.

(** [datetime.date]; dates compare as (year, month, day). *)
Record date : Type := mk_date { year : nat; month : nat; day : nat }.

Definition date_gt (a b : date) : bool :=
  (year b <? year a)
  || ((year a =? year b)
      && ((month b <? month a)
          || ((month a =? month b) && (day b <? day a)))).

(** [str(n)] of a non-negative int. *)
Definition str_of_nat (n : nat) : string :=
  NilEmpty.string_of_uint (Nat.to_uint n).

Fixpoint zeros (n : nat) : string :=
  match n with
  | 0 => EmptyString
  | S n' => String "0" (zeros n')
  end.

Definition zfill (width : nat) (s : string) : string :=
  zeros (width - String.length s) ++ s.

(** A date as pandas writes it, [YYYY-MM-DD]. *)
Definition isoformat (d : date) : string :=
  zfill 4 (str_of_nat (year d)) ++ "-" ++ zfill 2 (str_of_nat (month d))
  ++ "-" ++ zfill 2 (str_of_nat (day d)).

(** [str.encode('utf-8')].  A character of a [string] is a code point below
    256: one byte below 128, two bytes from 128 on. *)
Definition encode_char (c : ascii) : list Byte.byte :=
  let n := nat_of_ascii c in
  if n <? 128 then [byte_of_ascii c]
  else [byte_of_ascii (ascii_of_nat (192 + n / 64));
        byte_of_ascii (ascii_of_nat (128 + n mod 64))].

Fixpoint encode_utf8 (s : string) : list Byte.byte :=
  match s with
  | EmptyString => []
  | String c s' => encode_char c ++ encode_utf8 s'
  end.

(** [bytes.decode('utf-8')] on the encodings of code points below 256;
    [None] stands for [UnicodeDecodeError] and for any longer sequence. *)
Fixpoint decode_utf8 (bs : list Byte.byte) : option string :=
  match bs with
  | [] => Some EmptyString
  | b :: rest =>
      let n := nat_of_ascii (ascii_of_byte b) in
      if n <? 128 then option_map (String (ascii_of_byte b)) (decode_utf8 rest)
      else
        match rest with
        | [] => None
        | b2 :: rest2 =>
            let m := nat_of_ascii (ascii_of_byte b2) in
            if ((194 <=? n) && (n <? 196)) && ((128 <=? m) && (m <? 192))
            then option_map (String (ascii_of_nat ((n - 192) * 64 + (m - 128))))
                   (decode_utf8 rest2)
            else None
        end
  end.

(** A [dict] of strings in insertion order; a later pair replaces an earlier
    one with the same key. *)
Definition dict : Type := list (string * string).

Fixpoint dict_get (d : dict) (k : string) : option string :=
  match d with
  | [] => None
  | (k', v) :: d' =>
      match dict_get d' k with
      | Some v' => Some v'
      | None => if String.eqb k' k then Some v else None
      end
  end.

(** [d[k]] *)
Definition dict_getitem (d : dict) (k : string) : result string :=
  match dict_get d k with
  | Some v => Ok v
  | None => Raise (KeyError k)
  end.

End Py.

Import Py.

(** ** pandas: data frames and the CSV writer *)

Module Frame.

(** A table of float64 columns over a date index. *)
Record DataFrame : Type := mk_frame {
  index_label : string;
  index : list date;
  columns : list (string * Series)
}.

(** [df.empty]: one of the two axes has length 0. *)
Definition empty (df : DataFrame) : bool :=
  (length (index df) =? 0) || (length (columns df) =? 0).

(** [df.columns.to_list()] *)
Definition columns_to_list (df : DataFrame) : list string :=
  map fst (columns df).

Fixpoint lookup (cols : list (string * Series)) (key : string) : option Series :=
  match cols with
  | [] => None
  | (name, s) :: cols' => if String.eqb name key then Some s else lookup cols' key
  end.

(** [df[key]] for one label. *)
Definition getitem (df : DataFrame) (key : string) : result Series :=
  match lookup (columns df) key with
  | Some s => Ok s
  | None => Raise (KeyError key)
  end.

Fixpoint select (cols : list (string * Series)) (keys : list string)
  : result (list (string * Series)) :=
  match keys with
  | [] => Ok []
  | key :: keys' =>
      match lookup cols key with
      | None => Raise (KeyError key)
      | Some s =>
          match select cols keys' with
          | Ok rest => Ok ((key, s) :: rest)
          | Raise e => Raise e
          end
      end
  end.

(** [df[keys]] for a list of labels: the named columns, in the order asked. *)
Definition getitems (df : DataFrame) (keys : list string) : result DataFrame :=
  match select (columns df) keys with
  | Ok cols => Ok (mk_frame (index_label df) (index df) cols)
  | Raise e => Raise e
  end.

(** The CSV writer quotes a field that holds the delimiter, the quote
    character or a line break, and doubles the quote characters in it. *)
Definition quotechar : ascii := "034"%char.

Definition special (c : ascii) : bool :=
  Ascii.eqb c ","%char || Ascii.eqb c quotechar
  || Ascii.eqb c "010"%char || Ascii.eqb c "013"%char.

Fixpoint needs_quotes (s : string) : bool :=
  match s with
  | EmptyString => false
  | String c s' => special c || needs_quotes s'
  end.

Fixpoint double_quotes (s : string) : string :=
  match s with
  | EmptyString => EmptyString
  | String c s' =>
      if Ascii.eqb c quotechar
      then String c (String c (double_quotes s'))
      else String c (double_quotes s')
  end.

Definition csv_field (s : string) : string :=
  if needs_quotes s
  then String quotechar (double_quotes s ++ String quotechar EmptyString)
  else s.

(** One row of the writer: the fields joined by commas, then the line
    terminator.  A row of one empty field is written as a pair of quote
    characters, so that it is not read back as a blank line. *)
Definition csv_row (lineterminator : string) (fields : list string) : string :=
  match fields with
  | [EmptyString] => String quotechar (String quotechar EmptyString)
  | _ => String.concat "," (map csv_field fields)
  end ++ lineterminator.

(** The two dtypes of the columns [yf.download] returns: float64 for the
    prices, int64 for the volume. *)
Inductive dtype : Type := float64 | int64.

(** A cell as text: [repr] of the number, the empty string for NaN. *)
Definition cell_text (repr : R -> string) (c : double) : string :=
  match c with
  | Some x => repr x
  | None => EmptyString
  end.

(** The cell of column [s] at row [i]. *)
Definition cell (s : Series) (i : nat) : double := nth i s NaN.

(** [df.to_csv()]: the header row (index label, then the column labels),
    then one row per index entry (the date, then the row's cells).  A cell
    is written as its column's dtype writes the number: [dtypes] gives the
    dtype of the column under a label, [repr] the text of a number of a
    dtype. *)
Definition to_csv (dtypes : string -> dtype) (repr : dtype -> R -> string)
    (lineterminator : string) (df : DataFrame) : string :=
  csv_row lineterminator (index_label df :: columns_to_list df)
  ++ String.concat EmptyString
       (map (fun i =>
               csv_row lineterminator
                 (isoformat (nth i (index df) (mk_date 0 0 0))
                  :: map (fun col =>
                            cell_text (repr (dtypes (fst col))) (cell (snd col) i))
                       (columns df)))
            (seq 0 (length (index df)))).

End Frame.

Import Frame.

(** ** The world outside the script *)

Module Web.

(** What [requests] sends: the query parameters and the headers of a GET. *)
Record Request : Type := mk_request {
  url : string;
  params : dict;
  headers : dict
}.

Record Response : Type := mk_response {
  status_code : nat;
  text : string
}.

End Web.

Import Web.

(** The frame [yf.download] returns: the column labels have two levels,
    (price field, ticker). *)
Record RawFrame : Type := mk_raw {
  raw_index_label : string;
  raw_index : list date;
  raw_columns : list ((string * string) * Series)
}.

(** A table of text columns, as the ticker directory would be. *)
Definition TextTable : Type := list (string * list string).

(** The collaborators the script calls and the values it cannot compute:
    [column_dtype] is the dtype of the column the provider returns under a
    label, [cell_repr] the text pandas writes for a number of a dtype,
    [linesep] is [os.linesep]. *)
Record World : Type := mk_world {
  today : date;
  http_get : Request -> result Response;
  requests_version : string;
  yf_download : string -> date -> date -> result RawFrame;
  column_dtype : string -> dtype;
  cell_repr : dtype -> R -> string;
  linesep : string
}.

(** The widget values of one interaction. *)
Record Inputs : Type := mk_inputs {
  ticker : string;
  start_date : date;
  end_date : date;
  volume_flag : bool;
  sma_flag : bool;
  sma_periods : nat;
  bb_flag : bool;
  bb_periods : nat;
  bb_std : nat;
  rsi_flag : bool;
  rsi_periods : nat;
  rsi_upper : nat;
  rsi_lower : nat;
  columns_to_show : list string
}.

(** ** Plotly traces and the calls a run makes *)

Record line_style : Type := mk_line { color : string; dash : option string }.

Inductive trace : Type :=
| Candlestick (open close high low : Series) (name : string) (x : list date)
| Scatter (x : list date) (y : Series) (mode name : string) (line : line_style)
| Bar (x : list date) (y : Series) (name marker_color : string).

Record layout : Type := mk_layout {
  title : string;
  xaxis_title : string;
  yaxis_title : string;
  yaxis_autorange : bool;
  yaxis_fixedrange : bool;
  template : string;
  xaxis_rangeslider_visible : bool;
  dragmode : string;
  height : nat;
  width : nat
}.

(** Every call of the script into Streamlit, Plotly, [requests] and the
    cached loader, as the log of a run records it. *)
Inductive call : Type :=
| requests_get (req : Request)
| sidebar_header (body : string)
| sidebar_selectbox (label : string) (options : list string) (format_func : dict)
| sidebar_date_input (label : string) (value : date)
| sidebar_error (body : string)
| sidebar_checkbox (label : string)
| sidebar_expander (label : string)
| expander_checkbox (expander label : string)
| expander_number_input (expander label : string) (min_value max_value : nat)
    (value : option nat)
| st_title (body : string)
| st_write (body : string)
| st_expander (label : string)
| load_data_call (symbol : string) (start finish : date)
| expander_multiselect (expander label : string) (options default : list string)
| expander_dataframe (expander : string) (data : DataFrame)
| expander_download_button (expander label : string) (data : list Byte.byte)
    (file_name mime : string)
| go_Figure
| fig_add_trace (t : trace)
| fig_add_hline (y : nat) (line : line_style)
| fig_update_layout (l : layout)
| st_error (body : string)
| st_plotly_chart (scrollZoom : bool).

(** ** Runs: a log of calls and an outcome *)

Definition run (A : Type) : Type := list call * result A.

Definition ret {A : Type} (a : A) : run A := ([], Ok a).

Definition bind {A B : Type} (m : run A) (k : A -> run B) : run B :=
  match snd m with
  | Ok a => (fst m ++ fst (k a), snd (k a))
  | Raise e => (fst m, Raise e)
  end.

Definition emit (c : call) : run unit := ([c], Ok tt).

Definition lift {A : Type} (r : result A) : run A := ([], r).

Definition log {A : Type} (m : run A) : list call := fst m.
Definition outcome {A : Type} (m : run A) : result A := snd m.

Declare Scope run_scope.
Delimit Scope run_scope with run.
Notation "x <- m ;; k" := (bind m (fun x => k))
  (at level 61, m at next level, right associativity) : run_scope.
Notation "m ;; k" := (bind m (fun _ => k))
  (at level 61, right associativity) : run_scope.

(** ** The script *)

Module App.

Local Open Scope run_scope.
Local Open Scope string_scope.

Definition sp500_url : string :=
  "https://en.wikipedia.org/wiki/List_of_S%26P_500_companies".

Definition browser_user_agent : string :=
  "Mozilla/5.0 (Windows NT 10.0; Win64; x64) AppleWebKit/537.36 (KHTML, like Gecko) Chrome/91.0.4472.124 Safari/537.36".

(** The headers [requests] sends when the caller gives none. *)
Definition default_headers (w : World) : dict :=
  [("User-Agent", "python-requests/" ++ requests_version w);
   ("Accept-Encoding", "gzip, deflate");
   ("Accept", "*/*");
   ("Connection", "keep-alive")].

(** [requests.get(url, params=None, **kwargs)]: the second positional
    argument is [params]; headers are given by the keyword [headers]. *)
Definition requests_dot_get (w : World) (url : string) (params : option dict)
    (kw_headers : option dict) : run Response :=
  let req :=
    mk_request url
      (match params with Some p => p | None => [] end)
      (default_headers w ++ match kw_headers with Some h => h | None => [] end)%list
  in
  emit (requests_get req) ;;
  lift (http_get w req).

(** [response[key]]: a [Response] has no [__getitem__]. *)
Definition response_getitem (r : Response) (key : nat) : result TextTable :=
  Raise (TypeError "'Response' object is not subscriptable").

Definition table_getitem (t : TextTable) (key : string) : result (list string) :=
  match find (fun c => String.eqb (fst c) key) t with
  | Some c => Ok (snd c)
  | None => Raise (KeyError key)
  end.

(** Lines 13-20. *)
Definition get_sp500_components (w : World) : run (list string * dict) :=
  let headers := [("User-Agent", browser_user_agent)] in
  df <- requests_dot_get w sp500_url (Some headers) None ;;
  df <- lift (response_getitem df 0) ;;
  tickers <- lift (table_getitem df "Symbol") ;;
  symbols <- lift (table_getitem df "Symbol") ;;
  securities <- lift (table_getitem df "Security") ;;
  let tickers_companies_dict := combine symbols securities in
  ret (tickers, tickers_companies_dict).

(** [data.columns.get_level_values(0)]: the first level of every column
    label. *)
Definition first_level (data : RawFrame) : DataFrame :=
  mk_frame (raw_index_label data) (raw_index data)
    (map (fun c => (fst (fst c), snd c)) (raw_columns data)).

(** Lines 23-26. *)
Definition load_data (w : World) (symbol : string) (start finish : date)
  : run DataFrame :=
  emit (load_data_call symbol start finish) ;;
  data <- lift (yf_download w symbol start finish) ;;
  ret (first_level data).

(** Lines 29-30. *)
Definition convert_df_to_csv (w : World) (df : DataFrame) : list Byte.byte :=
  encode_utf8 (to_csv (column_dtype w) (cell_repr w) (linesep w) df).

(** Step 2, lines 35-39 (the directory is already loaded). *)
Definition stock_parameters (w : World) (ui : Inputs)
    (available_tickers : list string) (tickers_companies_dict : dict) : run unit :=
  emit (sidebar_selectbox "Ticker" available_tickers tickers_companies_dict) ;;
  emit (sidebar_date_input "Start Date" (mk_date 2018 1 1)) ;;
  emit (sidebar_date_input "End Date" (today w)) ;;
  if date_gt (start_date ui) (end_date ui)
  then emit (sidebar_error "The End Date must fall after the Start Date")
  else ret tt.

(** Step 3, lines 42-58. *)
Definition technical_analysis_parameters : run unit :=
  emit (sidebar_header "Technical Analysis Parameters") ;;
  emit (sidebar_checkbox "Add volume") ;;
  emit (sidebar_expander "SMA") ;;
  emit (expander_checkbox "SMA" "Add SMA") ;;
  emit (expander_number_input "SMA" "SMA Periods" 1 50 (Some 20)) ;;
  emit (sidebar_expander "Bollinger Bands") ;;
  emit (expander_checkbox "Bollinger Bands" "Enable Bollinger Bands") ;;
  emit (expander_number_input "Bollinger Bands" "BB Periods" 1 50 None) ;;
  emit (expander_number_input "Bollinger Bands" "BB Stanard Deviations" 1 4 None) ;;
  emit (sidebar_expander "Relative Strength Index") ;;
  emit (expander_checkbox "Relative Strength Index" "Enable Relative Strength Index") ;;
  emit (expander_number_input "Relative Strength Index" "RSI Periods" 1 20 None) ;;
  emit (expander_number_input "Relative Strength Index" "RSI Upper" 50 90 None) ;;
  emit (expander_number_input "Relative Strength Index" "RSI Lower" 10 50 None).

Definition user_manual : string :=
"
### User manual
* You can Select any single Company from the S&P 500
* Stock prices is updated daily
* 3 Technical Indicators are Available
* You are able to download the data from Yahoo into a CSV file         
".

(** Step 4, lines 61-79: the price table, its preview and its export. *)
Definition content (w : World) (ui : Inputs) : run DataFrame :=
  emit (st_title "Technical Analysis of Companies listed in The S&P 500") ;;
  emit (st_write user_manual) ;;
  df <- load_data w (ticker ui) (start_date ui) (end_date ui) ;;
  emit (st_expander "Preview Data") ;;
  let available_cols := columns_to_list df in
  emit (expander_multiselect "Preview Data" "Columns" available_cols available_cols) ;;
  shown <- lift (getitems df (columns_to_show ui)) ;;
  emit (expander_dataframe "Preview Data" shown) ;;
  selected <- lift (getitems df (columns_to_show ui)) ;;
  let csv_file := convert_df_to_csv w selected in
  emit (expander_download_button "Preview Data" "Download selected as CSV" csv_file
          (ticker ui ++ " Daily Stock Prices") "text/csv") ;;
  ret df.

(** Lines 96-106. *)
Definition rsi_traces (ui : Inputs) (df : DataFrame) : run unit :=
  close <- lift (getitem df "Close") ;;
  rsi <- lift (Indicators.rsi close (rsi_periods ui)) ;;
  emit (fig_add_trace
          (Scatter (index df) rsi "lines" ("RSI " ++ str_of_nat (rsi_periods ui))
             (mk_line "green" None))) ;;
  emit (fig_add_hline (rsi_upper ui) (mk_line "red" (Some "dot"))) ;;
  emit (fig_add_hline (rsi_lower ui) (mk_line "red" (Some "dot"))).

(** Lines 109-115. *)
Definition volume_trace (df : DataFrame) : run unit :=
  volume <- lift (getitem df "Volume") ;;
  emit (fig_add_trace (Bar (index df) volume "Volume" "rgba(255, 153, 51, 0.6)")).

(** Lines 118-126. *)
Definition sma_trace (ui : Inputs) (df : DataFrame) : run unit :=
  close <- lift (getitem df "Close") ;;
  let sma := Indicators.sma close (sma_periods ui) in
  emit (fig_add_trace
          (Scatter (index df) sma "lines" ("SMA " ++ str_of_nat (sma_periods ui))
             (mk_line "blue" None))).

(** Lines 129-148. *)
Definition bollinger_traces (ui : Inputs) (df : DataFrame) : run unit :=
  close <- lift (getitem df "Close") ;;
  let bands := Indicators.bollinger close (bb_periods ui) (of_nat (bb_std ui)) in
  let upper_band := fst bands in
  let lower_band := snd bands in
  emit (fig_add_trace
          (Scatter (index df) upper_band "lines" "Upper Bollinger Band"
             (mk_line "red" (Some "dash")))) ;;
  emit (fig_add_trace
          (Scatter (index df) lower_band "lines" "Lower Bollinger Band"
             (mk_line "red" (Some "dash")))).

Definition when (b : bool) (m : run unit) : run unit :=
  if b then m else ret tt.

(** Lines 151-166. *)
Definition show_chart (ui : Inputs) (tickers_companies_dict : dict) : run unit :=
  company <- lift (dict_getitem tickers_companies_dict (ticker ui)) ;;
  let title_str := company ++ "'s Stock Price" in
  emit (fig_update_layout
          (mk_layout title_str "Date" "Price" true false "plotly_dark" true "pan"
             500 2000)) ;;
  emit (st_plotly_chart true).

(** Step 5, lines 82-166. *)
Definition plotting (ui : Inputs) (tickers_companies_dict : dict) (df : DataFrame)
  : run unit :=
  emit go_Figure ;;
  if Frame.empty df
  then emit (st_error "No Data Available for the Selected Stock and Date range")
  else
    open <- lift (getitem df "Open") ;;
    close <- lift (getitem df "Close") ;;
    high <- lift (getitem df "High") ;;
    low <- lift (getitem df "Low") ;;
    emit (fig_add_trace (Candlestick open close high low "Price" (index df))) ;;
    when (rsi_flag ui) (rsi_traces ui df) ;;
    when (volume_flag ui) (volume_trace df) ;;
    when (sma_flag ui) (sma_trace ui df) ;;
    when (bb_flag ui) (bollinger_traces ui df) ;;
    show_chart ui tickers_companies_dict.

(** Steps 3 to 5, lines 42-166: what follows the date check. *)
Definition pipeline (w : World) (ui : Inputs) (tickers_companies_dict : dict)
  : run unit :=
  technical_analysis_parameters ;;
  df <- content w ui ;;
  plotting ui tickers_companies_dict df.

(** The script from line 35 on, once the ticker directory is there. *)
Definition page (w : World) (ui : Inputs) (available_tickers : list string)
    (tickers_companies_dict : dict) : run unit :=
  stock_parameters w ui available_tickers tickers_companies_dict ;;
  pipeline w ui tickers_companies_dict.

(** The whole script, lines 33-166. *)
Definition script (w : World) (ui : Inputs) : run unit :=
  emit (sidebar_header "Stock Parameters") ;;
  directory <- get_sp500_components w ;;
  page w ui (fst directory) (snd directory).

End App.

(** ** What the claims speak of *)

(** The calls that put something on the figure. *)
Definition is_figure_call (c : call) : bool :=
  match c with
  | fig_add_trace _ | fig_add_hline _ _ => true
  | _ => false
  end.

Definition figure_calls (l : list call) : list call := filter is_figure_call l.

(** The calls that build or render the chart, the empty figure apart. *)
Definition is_chart_call (c : call) : bool :=
  match c with
  | fig_add_trace _ | fig_add_hline _ _ | fig_update_layout _ | st_plotly_chart _ => true
  | _ => false
  end.

Definition chart_calls (l : list call) : list call := filter is_chart_call l.

(** Column [name] of a table, empty when the table has no such column. *)
Definition column_of (df : DataFrame) (name : string) : Series :=
  match lookup (columns df) name with
  | Some s => s
  | None => []
  end.

(** *** Reading a CSV text

    What a CSV text holds is what a reader finds in it.  The reader below
    is the usual one (fields parted by commas, records by line breaks,
    quoted fields with doubled quotes); it shares nothing with the writer
    of [Frame]. *)

Module CsvReader.

(** Where the reader stands: before the first field of a record, before a
    later field, inside a bare field, inside a quoted field, after a quote
    character met inside a quoted field. *)
Inductive mode : Type := record_start | field_start | bare | quoted | quote_seen.

Definition snoc (s : string) (c : ascii) : string := (s ++ String c EmptyString)%string.

(** A record ends at a line feed or at a carriage return; a line with
    nothing on it is no record (so the line feed after a carriage return
    adds none).  A field that starts with the quote character runs to the
    next quote character that is not doubled; a doubled one stands for
    itself. *)
Fixpoint read_from (m : mode) (field : string) (row : list string) (s : string)
  : list (list string) :=
  match s with
  | EmptyString =>
      match m with
      | record_start => []
      | _ => [row ++ [field]]
      end
  | String c s' =>
      match m with
      | record_start =>
          if Ascii.eqb c "010"%char then read_from record_start EmptyString [] s'
          else if Ascii.eqb c "013"%char then read_from record_start EmptyString [] s'
          else if Ascii.eqb c "034"%char then read_from quoted EmptyString [] s'
          else if Ascii.eqb c ","%char
          then read_from field_start EmptyString [EmptyString] s'
          else read_from bare (String c EmptyString) [] s'
      | field_start =>
          if Ascii.eqb c "010"%char
          then (row ++ [EmptyString]) :: read_from record_start EmptyString [] s'
          else if Ascii.eqb c "013"%char
          then (row ++ [EmptyString]) :: read_from record_start EmptyString [] s'
          else if Ascii.eqb c "034"%char then read_from quoted EmptyString row s'
          else if Ascii.eqb c ","%char
          then read_from field_start EmptyString (row ++ [EmptyString]) s'
          else read_from bare (String c EmptyString) row s'
      | bare =>
          if Ascii.eqb c "010"%char
          then (row ++ [field]) :: read_from record_start EmptyString [] s'
          else if Ascii.eqb c "013"%char
          then (row ++ [field]) :: read_from record_start EmptyString [] s'
          else if Ascii.eqb c ","%char
          then read_from field_start EmptyString (row ++ [field]) s'
          else read_from bare (snoc field c) row s'
      | quoted =>
          if Ascii.eqb c "034"%char then read_from quote_seen field row s'
          else read_from quoted (snoc field c) row s'
      | quote_seen =>
          if Ascii.eqb c "034"%char then read_from quoted (snoc field c) row s'
          else if Ascii.eqb c "010"%char
          then (row ++ [field]) :: read_from record_start EmptyString [] s'
          else if Ascii.eqb c "013"%char
          then (row ++ [field]) :: read_from record_start EmptyString [] s'
          else if Ascii.eqb c ","%char
          then read_from field_start EmptyString (row ++ [field]) s'
          else read_from bare (snoc field c) row s'
      end
  end.

(** The records of a CSV text, each the list of its fields. *)
Definition read (s : string) : list (list string) :=
  read_from record_start EmptyString [] s.

End CsvReader.

Definition newline : string := String "010"%char EmptyString.
Definition crlf : string := String "013"%char (String "010"%char EmptyString).

(** The two values [os.linesep] takes. *)
Definition is_linesep (t : string) : Prop := t = newline \/ t = crlf.

(** The text after a written field starts with a comma or a line break. *)
Definition separated (rest : string) : Prop :=
  exists c rest',
    rest = String c rest' /\ (c = ","%char \/ c = "010"%char \/ c = "013"%char).

(** What the writer puts after the first field of a row, up to [rest]. *)
Fixpoint row_tail (t : string) (fields : list string) (rest : string) : string :=
  match fields with
  | [] => t ++ rest
  | f :: fields' => String ","%char (csv_field f ++ row_tail t fields' rest)
  end.

(** The fields of the export's header row: the index label, then the
    chosen labels. *)
Definition header_fields (df : DataFrame) (cols : list string) : list string :=
  index_label df :: cols.

(** The fields of row [i] of the export: the date of the row, then its
    chosen cells, each as its column's dtype writes it. *)
Definition row_fields (w : World) (df : DataFrame) (cols : list string) (i : nat)
  : list string :=
  isoformat (nth i (index df) (mk_date 0 0 0))
  :: map (fun c => cell_text (cell_repr w (column_dtype w c)) (cell (column_of df c) i))
       cols.

(** The records of the export of the columns [cols] of [df]. *)
Definition export_records (w : World) (df : DataFrame) (cols : list string)
  : list (list string) :=
  header_fields df cols :: map (row_fields w df cols) (seq 0 (length (index df))).

(** The calls of step 4 when the loader returns [df] and the selection
    [selected] exists: title, manual, load, preview, export. *)
Definition content_calls (w : World) (ui : Inputs) (df selected : DataFrame)
  : list call :=
  [ st_title "Technical Analysis of Companies listed in The S&P 500";
    st_write App.user_manual;
    load_data_call (ticker ui) (start_date ui) (end_date ui);
    st_expander "Preview Data";
    expander_multiselect "Preview Data" "Columns" (columns_to_list df) (columns_to_list df);
    expander_dataframe "Preview Data" selected;
    expander_download_button "Preview Data" "Download selected as CSV"
      (App.convert_df_to_csv w selected)
      (ticker ui ++ " Daily Stock Prices") "text/csv" ].

(** The figure calls the specification lists, in its order: candlestick,
    RSI with its two threshold lines, volume, SMA, Bollinger upper and
    lower. *)
Definition expected_figure_calls (ui : Inputs) (df : DataFrame)
    (open close high low volume rsi : Series) : list call :=
  [ fig_add_trace (Candlestick open close high low "Price" (index df)) ]
  ++ (if rsi_flag ui
      then [ fig_add_trace
               (Scatter (index df) rsi "lines"
                  ("RSI " ++ str_of_nat (rsi_periods ui)) (mk_line "green" None));
             fig_add_hline (rsi_upper ui) (mk_line "red" (Some "dot"%string));
             fig_add_hline (rsi_lower ui) (mk_line "red" (Some "dot"%string)) ]
      else [])
  ++ (if volume_flag ui
      then [ fig_add_trace
               (Bar (index df) volume "Volume" "rgba(255, 153, 51, 0.6)") ]
      else [])
  ++ (if sma_flag ui
      then [ fig_add_trace
               (Scatter (index df) (Indicators.sma close (sma_periods ui)) "lines"
                  ("SMA " ++ str_of_nat (sma_periods ui)) (mk_line "blue" None)) ]
      else [])
  ++ (if bb_flag ui
      then [ fig_add_trace
               (Scatter (index df)
                  (Indicators.upper_band close (bb_periods ui) (of_nat (bb_std ui)))
                  "lines" "Upper Bollinger Band" (mk_line "red" (Some "dash"%string)));
             fig_add_trace
               (Scatter (index df)
                  (Indicators.lower_band close (bb_periods ui) (of_nat (bb_std ui)))
                  "lines" "Lower Bollinger Band" (mk_line "red" (Some "dash"%string))) ]
      else []).

(** ** Shapes of an indicator series *)

Definition all_numeric (s : Series) : Prop := Forall (fun x => is_nan x = false) s.

Definition missing_at (s : Series) (i : nat) : Prop := nth_error s i = Some NaN.

Definition numeric_at (s : Series) (i : nat) : Prop :=
  exists v, nth_error s i = Some (Some v).

(** [out] has [n] rows: the first [k] are missing, every later one is a
    number. *)
Definition warm_up (k n : nat) (out : Series) : Prop :=
  length out = n /\
  forall i, i < n -> (i < k -> missing_at out i) /\ (k <= i -> numeric_at out i).

(** Every row of [out] is missing. *)
Definition all_missing (n : nat) (out : Series) : Prop :=
  length out = n /\ forall i, i < n -> missing_at out i.

Definition prices3 : Series := [Some 1%R; Some 2%R; Some 3%R].

(** The warm-up the specification states for all three indicators: with a
    window [w] exactly the first [w - 1] rows are missing. *)
Definition first_rows_claim (w : nat) (close : Series) : Prop :=
  let n := length close in
  warm_up (w - 1) n (Indicators.sma close w) /\
  (forall k : R,
      warm_up (w - 1) n (Indicators.upper_band close w (of_R k)) /\
      warm_up (w - 1) n (Indicators.lower_band close w (of_R k))) /\
  (exists out, Indicators.rsi close w = Ok out /\ warm_up (w - 1) n out).

(** ** A sample interaction *)

Definition sample_prices : RawFrame :=
  mk_raw "Date" [mk_date 2023 1 3; mk_date 2023 1 4; mk_date 2023 1 5]
    [ (("Close", "MMM"), prices3);
      (("High", "MMM"), [Some 2%R; Some 3%R; Some 4%R]);
      (("Low", "MMM"), [Some 1%R; Some 1%R; Some 2%R]);
      (("Open", "MMM"), [Some 1%R; Some 2%R; Some 2%R]);
      (("Volume", "MMM"), [Some 100%R; Some 200%R; Some 300%R]) ]%string.

Definition no_prices : RawFrame :=
  mk_raw "Date" []
    [ (("Close", "MMM"), []); (("High", "MMM"), []); (("Low", "MMM"), []);
      (("Open", "MMM"), []); (("Volume", "MMM"), []) ]%string.

(** Prices are float64 and the volume is int64.  The sample printer does
    not look at the number: it shows a float64 with a fraction and an int64
    without one. *)
Definition sample_dtype (label : string) : dtype :=
  if String.eqb label "Volume" then int64 else float64.

Definition sample_repr (t : dtype) (x : R) : string :=
  match t with
  | float64 => "1.0"
  | int64 => "1"
  end.

(** A provider that has three trading days in any forward range and none in
    a reversed one. *)
Definition sample_world : World :=
  mk_world (mk_date 2024 1 2)
    (fun _ => Ok (mk_response 200 "<html></html>"))
    "2.31.0"
    (fun _ start finish => if date_gt start finish then Ok no_prices else Ok sample_prices)
    sample_dtype sample_repr
    newline.

Definition sample_tickers : list string := ["MMM"; "AOS"]%string.
Definition sample_companies : dict := [("MMM", "3M"); ("AOS", "A. O. Smith")]%string.

Definition all_columns : list string := ["Close"; "High"; "Low"; "Open"; "Volume"]%string.

(** Every overlay enabled, RSI period 2. *)
Definition sample_inputs : Inputs :=
  mk_inputs "MMM" (mk_date 2023 1 1) (mk_date 2023 1 10)
    true true 2 true 2 1 true 2 70 30 all_columns.

(** The dates of the specification's scenario, start after end. *)
Definition reversed_dates : Inputs :=
  mk_inputs "MMM" (mk_date 2023 6 1) (mk_date 2023 1 1)
    true true 2 true 2 1 true 2 70 30 all_columns.

(** Every overlay enabled, every number as its widget starts: SMA period
    20, Bollinger window 1 and multiplier 1, RSI period 1 with thresholds 50
    and 10. *)
Definition every_overlay_at_defaults : Inputs :=
  mk_inputs "MMM" (mk_date 2023 1 1) (mk_date 2023 1 10)
    true true 20 true 1 1 true 1 50 10 all_columns.

(** RSI enabled with the period the widget starts at, 1. *)
Definition rsi_period_1 : Inputs :=
  mk_inputs "MMM" (mk_date 2023 1 1) (mk_date 2023 1 10)
    false false 20 false 1 1 true 1 50 10 all_columns.

(** ** Invariants of [TA_RSI]'s running averages *)

Definition numeric_state (st : Talib.rsi_state) : Prop :=
  is_nan (Talib.prevValue st) = false /\
  is_nan (Talib.prevGain st) = false /\
  is_nan (Talib.prevLoss st) = false.

Definition nonneg (x : double) : Prop :=
  match x with Some r => (0 <= r)%R | None => True end.

Definition nonneg_state (st : Talib.rsi_state) : Prop :=
  nonneg (Talib.prevGain st) /\ nonneg (Talib.prevLoss st).

Definition in_range (x : double) : Prop :=
  match x with Some r => (0 <= r <= 100)%R | None => True end.

(** ** Kinds of calls, price ranges and further sample runs *)

Definition is_sidebar_error (c : call) : bool :=
  match c with sidebar_error _ => true | _ => false end.

Definition is_page_error (c : call) : bool :=
  match c with st_error _ => true | _ => false end.

Definition is_load_data_call (c : call) : bool :=
  match c with load_data_call _ _ _ => true | _ => false end.

Definition is_request (c : call) : bool :=
  match c with requests_get _ => true | _ => false end.

Definition is_render (c : call) : bool :=
  match c with st_plotly_chart _ => true | _ => false end.

(** The layout of lines 153-163 under a given title. *)
Definition chart_layout (title_str : string) : layout :=
  mk_layout title_str "Date" "Price" true false "plotly_dark" true "pan" 500 2000.

(** The four columns the candlestick reads, in the order line 88-91 reads
    them. *)
Definition price_columns : list string := ["Open"; "Close"; "High"; "Low"]%string.

(** A cell is missing or equal to [c]. *)
Definition is_value (c : R) (x : double) : Prop :=
  match x with Some r => r = c | None => True end.

(** Each price is at most the one before it. *)
Fixpoint falls_from (p : R) (prices : list R) : Prop :=
  match prices with
  | [] => True
  | x :: rest => (x <= p)%R /\ falls_from x rest
  end.

Definition never_rises (prices : list R) : Prop :=
  match prices with
  | [] => True
  | first :: rest => falls_from first rest
  end.

(** A provider that is out of reach. *)
Definition offline_world : World :=
  mk_world (mk_date 2024 1 2)
    (fun _ => Raise ConnectionError)
    "2.31.0"
    (fun _ _ _ => Raise ProviderError)
    sample_dtype sample_repr
    newline.

(** A table without an "Open" column, and a provider that returns it. *)
Definition no_open_prices : RawFrame :=
  mk_raw "Date" [mk_date 2023 1 3]
    [ (("Close", "MMM"), [Some 1%R]); (("High", "MMM"), [Some 2%R]);
      (("Low", "MMM"), [Some 1%R]); (("Volume", "MMM"), [Some 100%R]) ]%string.

Definition no_open_world : World :=
  mk_world (mk_date 2024 1 2)
    (fun _ => Raise ConnectionError)
    "2.31.0"
    (fun _ _ _ => Ok no_open_prices)
    sample_dtype sample_repr
    newline.

(** No overlay, only the "Close" column selected. *)
Definition close_only : Inputs :=
  mk_inputs "MMM" (mk_date 2023 1 1) (mk_date 2023 1 10)
    false false 20 false 1 1 false 1 50 10 ["Close"]%string.

(** No overlay, every column selected. *)
Definition plain_inputs : Inputs :=
  mk_inputs "MMM" (mk_date 2023 1 1) (mk_date 2023 1 10)
    false false 20 false 1 1 false 1 50 10 all_columns.

(** A run that renders the chart renders it as its last call and ends
    normally. *)
Definition renders_last (r : run unit) : Prop :=
  forall z,
    In (st_plotly_chart z) (log r) ->
    outcome r = Ok tt /\ exists before, log r = before ++ [st_plotly_chart true].

(* ================================================================== *)
(** * Properties *)
(* ================================================================== *)

(** ** Rolling windows *)

Section RollingFacts.

Local Open Scope nat_scope.

Lemma nth_error_map_seq (A : Type) (f : nat -> A) (n i : nat) :
  i < n -> nth_error (map f (seq 0 n)) i = Some (f i).
Proof.
  intros Hi. rewrite nth_error_map, nth_error_seq.
  destruct (Nat.ltb_spec i n) as [_|Hge]; [reflexivity | lia].
Qed.

Lemma window_at_length (w : nat) (s : Series) (i : nat) :
  i < length s -> length (window_at w s i) = Nat.min w (S i).
Proof.
  intros Hi. unfold window_at.
  rewrite length_firstn, length_skipn. lia.
Qed.

Lemma window_at_short (w : nat) (s : Series) (i : nat) :
  length (window_at w s i) <= S i.
Proof.
  unfold window_at. rewrite length_firstn. lia.
Qed.

Lemma observations_length_le (l : list double) :
  length (observations l) <= length l.
Proof.
  induction l as [ | [x | ] l IH ]; simpl; lia.
Qed.

Lemma observations_numeric (l : list double) :
  all_numeric l -> length (observations l) = length l.
Proof.
  induction 1 as [ | [x | ] l Hx _ IH ]; simpl; try discriminate; congruence.
Qed.

Lemma Forall_firstn_keep (A : Type) (P : A -> Prop) (n : nat) (l : list A) :
  Forall P l -> Forall P (firstn n l).
Proof.
  intros H. revert n. induction H as [ | x l Hx _ IH ]; intros [ | n ]; simpl; auto.
Qed.

Lemma Forall_skipn_keep (A : Type) (P : A -> Prop) (n : nat) (l : list A) :
  Forall P l -> Forall P (skipn n l).
Proof.
  intros H. revert n. induction H as [ | x l Hx Hl IH ]; intros [ | n ]; simpl; auto.
Qed.

Lemma all_numeric_window (w : nat) (s : Series) (i : nat) :
  all_numeric s -> all_numeric (window_at w s i).
Proof.
  intros H. unfold window_at, all_numeric.
  now apply Forall_firstn_keep, Forall_skipn_keep.
Qed.

Lemma nobs_window (w : nat) (s : Series) (i : nat) :
  all_numeric s -> i < length s ->
  length (observations (window_at w s i)) = Nat.min w (S i).
Proof.
  intros Hs Hi.
  rewrite observations_numeric by now apply all_numeric_window.
  now apply window_at_length.
Qed.

Lemma nobs_window_le (w : nat) (s : Series) (i : nat) :
  length (observations (window_at w s i)) <= S i.
Proof.
  etransitivity; [apply observations_length_le | apply window_at_short].
Qed.

Lemma rolling_mean_length (w : nat) (s : Series) :
  length (rolling_mean w s) = length s.
Proof. unfold rolling_mean. now rewrite length_map, length_seq. Qed.

Lemma rolling_std_length (w : nat) (s : Series) :
  length (rolling_std w s) = length s.
Proof. unfold rolling_std. now rewrite length_map, length_seq. Qed.

Lemma rolling_mean_nth (w : nat) (s : Series) (i : nat) :
  i < length s ->
  nth_error (rolling_mean w s) i
  = Some (calc_mean w (observations (window_at w s i))).
Proof. intros Hi. unfold rolling_mean. now rewrite nth_error_map_seq. Qed.

Lemma rolling_std_nth (w : nat) (s : Series) (i : nat) :
  i < length s ->
  nth_error (rolling_std w s) i
  = Some (zsqrt (calc_var w 1 (observations (window_at w s i)))).
Proof. intros Hi. unfold rolling_std. now rewrite nth_error_map_seq. Qed.

(** Before row [window - 1] the mean is missing, whatever the cells hold. *)
Lemma rolling_mean_early (w : nat) (s : Series) (i : nat) :
  i < length s -> S i < w -> missing_at (rolling_mean w s) i.
Proof.
  intros Hi Hw. unfold missing_at. rewrite rolling_mean_nth by assumption.
  unfold calc_mean. pose proof (nobs_window_le w s i) as Hn.
  destruct (Nat.leb_spec w (length (observations (window_at w s i)))); [lia|].
  reflexivity.
Qed.

(** From row [window - 1] on the mean of numeric cells is a number. *)
Lemma rolling_mean_late (w : nat) (s : Series) (i : nat) :
  all_numeric s -> i < length s -> 1 <= w -> w <= S i ->
  numeric_at (rolling_mean w s) i.
Proof.
  intros Hs Hi Hw1 Hw. unfold numeric_at. rewrite rolling_mean_nth by assumption.
  unfold calc_mean. rewrite nobs_window by assumption.
  replace (Nat.min w (S i)) with w by lia.
  rewrite Nat.leb_refl. destruct (Nat.ltb_spec 0 w); [|lia].
  simpl. eexists. reflexivity.
Qed.

Lemma rolling_std_late (w : nat) (s : Series) (i : nat) :
  all_numeric s -> i < length s -> 2 <= w -> w <= S i ->
  numeric_at (rolling_std w s) i.
Proof.
  intros Hs Hi Hw1 Hw. unfold numeric_at. rewrite rolling_std_nth by assumption.
  unfold calc_var. rewrite nobs_window by assumption.
  replace (Nat.min w (S i)) with w by lia.
  rewrite Nat.leb_refl. destruct (Nat.ltb_spec 1 w); [|lia].
  simpl. eexists. reflexivity.
Qed.

(** With a window of one row the sample deviation is missing everywhere. *)
Lemma rolling_std_window_1 (s : Series) (i : nat) :
  i < length s -> missing_at (rolling_std 1 s) i.
Proof.
  intros Hi. unfold missing_at. rewrite rolling_std_nth by assumption.
  unfold calc_var. pose proof (observations_length_le (window_at 1 s i)) as Hn.
  rewrite window_at_length in Hn by assumption.
  destruct (Nat.ltb_spec 1 (length (observations (window_at 1 s i)))); [lia|].
  now rewrite andb_false_r.
Qed.

End RollingFacts.

(** ** Series arithmetic and the Bollinger bands *)

Section BandFacts.

Lemma nth_error_combine (A B : Type) (a : list A) (b : list B) (i : nat) (x : A) (y : B) :
  nth_error a i = Some x -> nth_error b i = Some y ->
  nth_error (combine a b) i = Some (x, y).
Proof.
  revert b i. induction a as [ | a0 a IH ]; intros [ | b0 b ] [ | i ]; simpl;
    try discriminate.
  - congruence.
  - apply IH.
Qed.

Lemma series_add_nth (a b : Series) (i : nat) (x y : double) :
  nth_error a i = Some x -> nth_error b i = Some y ->
  nth_error (series_add a b) i = Some (add x y).
Proof.
  intros Ha Hb. unfold series_add.
  now rewrite nth_error_map, (nth_error_combine _ _ _ Ha Hb).
Qed.

Lemma series_sub_nth (a b : Series) (i : nat) (x y : double) :
  nth_error a i = Some x -> nth_error b i = Some y ->
  nth_error (series_sub a b) i = Some (sub x y).
Proof.
  intros Ha Hb. unfold series_sub.
  now rewrite nth_error_map, (nth_error_combine _ _ _ Ha Hb).
Qed.

Lemma scalar_mul_nth (k : double) (s : Series) (i : nat) (x : double) :
  nth_error s i = Some x -> nth_error (scalar_mul k s) i = Some (mul k x).
Proof. intros Hs. unfold scalar_mul. now rewrite nth_error_map, Hs. Qed.

Lemma series_add_length (a b : Series) :
  length a = length b -> length (series_add a b) = length a.
Proof. intros H. unfold series_add. rewrite length_map, length_combine. lia. Qed.

Lemma series_sub_length (a b : Series) :
  length a = length b -> length (series_sub a b) = length a.
Proof. intros H. unfold series_sub. rewrite length_map, length_combine. lia. Qed.

Lemma upper_band_length (close : Series) (w : nat) (k : double) :
  length (Indicators.upper_band close w k) = length close.
Proof.
  unfold Indicators.upper_band, Indicators.bollinger. simpl.
  rewrite series_add_length; [apply rolling_mean_length|].
  unfold scalar_mul. now rewrite length_map, rolling_mean_length, rolling_std_length.
Qed.

Lemma lower_band_length (close : Series) (w : nat) (k : double) :
  length (Indicators.lower_band close w k) = length close.
Proof.
  unfold Indicators.lower_band, Indicators.bollinger. simpl.
  rewrite series_sub_length; [apply rolling_mean_length|].
  unfold scalar_mul. now rewrite length_map, rolling_mean_length, rolling_std_length.
Qed.

(** Row [i] of the two bands, from row [i] of the mean and of the
    deviation. *)
Lemma upper_band_nth (close : Series) (w : nat) (k : double) (i : nat) (m sd : double) :
  nth_error (rolling_mean w close) i = Some m ->
  nth_error (rolling_std w close) i = Some sd ->
  nth_error (Indicators.upper_band close w k) i = Some (add m (mul k sd)).
Proof.
  intros Hm Hsd. unfold Indicators.upper_band, Indicators.bollinger. simpl.
  apply series_add_nth; [assumption | now apply scalar_mul_nth].
Qed.

Lemma lower_band_nth (close : Series) (w : nat) (k : double) (i : nat) (m sd : double) :
  nth_error (rolling_mean w close) i = Some m ->
  nth_error (rolling_std w close) i = Some sd ->
  nth_error (Indicators.lower_band close w k) i = Some (sub m (mul k sd)).
Proof.
  intros Hm Hsd. unfold Indicators.lower_band, Indicators.bollinger. simpl.
  apply series_sub_nth; [assumption | now apply scalar_mul_nth].
Qed.

End BandFacts.

(** ** Wilder's averages, [TA_RSI] and its wrapper *)

Section RsiFacts.

Import Talib.

Lemma TA_EPSILON_pos : (0 < TA_EPSILON)%R.
Proof. unfold TA_EPSILON. apply Rinv_0_lt_compat. lra. Qed.

Lemma rsi_sample_numeric (g l : double) :
  is_nan g = false -> is_nan l = false -> is_nan (rsi_sample g l) = false.
Proof.
  destruct g as [g|], l as [l|]; try discriminate. intros _ _.
  unfold rsi_sample. simpl. destruct (negb _); reflexivity.
Qed.

Lemma rsi_sample_in_range (g l : double) :
  nonneg g -> nonneg l -> in_range (rsi_sample g l).
Proof.
  destruct g as [g|], l as [l|]; simpl; intros Hg Hl; unfold rsi_sample; simpl;
    try exact I.
  unfold TA_IS_ZERO, ltb, of_R. pose proof TA_EPSILON_pos as He.
  destruct (Rlt_dec (- TA_EPSILON) (g + l)) as [_|Hn]; [|lra].
  destruct (Rlt_dec (g + l) TA_EPSILON) as [Hz|Hz]; simpl; [lra|].
  assert (Hs : (0 < g + l)%R) by lra.
  assert (H0 : (0 <= g / (g + l))%R).
  { apply Rmult_le_pos; [lra|]. left. now apply Rinv_0_lt_compat. }
  assert (H1 : (g / (g + l) <= 1)%R).
  { apply Rmult_le_reg_r with (r := (g + l)%R); [lra|].
    unfold Rdiv. rewrite Rmult_assoc, Rinv_l by lra. lra. }
  lra.
Qed.

Lemma accumulate_rest (i : nat) (l : list double) (st : rsi_state) :
  fst (accumulate i l st) = skipn i l.
Proof.
  revert l st. induction i as [ | i IH ]; intros [ | x l ] st; simpl; try reflexivity.
  destruct (ltb _ _); apply IH.
Qed.

Lemma lift2_numeric (f : R -> R -> R) (a b : double) :
  is_nan a = false -> is_nan b = false -> is_nan (lift2 f a b) = false.
Proof. destruct a, b; simpl; congruence. Qed.

Local Ltac numeric :=
  repeat first
    [ assumption
    | reflexivity
    | apply rsi_sample_numeric
    | apply lift2_numeric
    | match goal with |- is_nan (if ?c then _ else _) = false => destruct c end ].

Lemma accumulate_numeric (i : nat) (l : list double) (st : rsi_state) :
  all_numeric l -> numeric_state st -> numeric_state (snd (accumulate i l st)).
Proof.
  revert l st. induction i as [ | i IH ]; intros l st Hl Hst; [destruct l; exact Hst|].
  destruct Hl as [ | x l Hx Hl ]; [exact Hst|].
  destruct Hst as (Hv & Hg & Hp).
  cbn [accumulate]. destruct (ltb _ _); apply IH; try assumption;
    repeat split; cbn [prevValue prevGain prevLoss]; numeric.
Qed.

Lemma nonneg_gain_step (g t : double) :
  nonneg g -> nonneg (if ltb t (of_R 0) then g else add g t).
Proof.
  intros Hg. destruct (ltb t (of_R 0)) eqn:E; [assumption|].
  destruct g as [g|], t as [t|]; simpl in *; try exact I.
  unfold of_R in E. destruct (Rlt_dec t 0); [discriminate|lra].
Qed.

Lemma nonneg_loss_step (l t : double) :
  nonneg l -> nonneg (if ltb t (of_R 0) then sub l t else l).
Proof.
  intros Hl. destruct (ltb t (of_R 0)) eqn:E; [|assumption].
  destruct l as [l|], t as [t|]; simpl in *; try exact I.
  unfold of_R in E. destruct (Rlt_dec t 0); [lra|discriminate].
Qed.

Lemma nonneg_mul (a : double) (c : R) :
  nonneg a -> (0 <= c)%R -> nonneg (mul a (of_R c)).
Proof. destruct a as [a|]; simpl; [nra | trivial]. Qed.

Lemma nonneg_div (a : double) (c : R) :
  nonneg a -> (0 < c)%R -> nonneg (div a (of_R c)).
Proof.
  destruct a as [a|]; simpl; [|trivial]. intros Ha Hc.
  apply Rmult_le_pos; [assumption | left; now apply Rinv_0_lt_compat].
Qed.

Lemma accumulate_nonneg (i : nat) (l : list double) (st : rsi_state) :
  nonneg_state st -> nonneg_state (snd (accumulate i l st)).
Proof.
  revert l st. induction i as [ | i IH ]; intros [ | x l ] st Hst; simpl; try exact Hst.
  destruct Hst as (Hg & Hp).
  pose proof (nonneg_gain_step (prevGain st) (sub x (prevValue st)) Hg) as Hg'.
  pose proof (nonneg_loss_step (prevLoss st) (sub x (prevValue st)) Hp) as Hp'.
  destruct (ltb (sub x (prevValue st)) (of_R 0)); apply IH; split; assumption.
Qed.

Lemma smooth_length (p : double) (l : list double) (st : rsi_state) :
  length (smooth p l st) = length l.
Proof.
  revert st. induction l as [ | x l IH ]; intros st; simpl; [reflexivity|].
  now rewrite IH.
Qed.

Lemma smooth_numeric (p : double) (l : list double) (st : rsi_state) :
  is_nan p = false -> all_numeric l -> numeric_state st ->
  all_numeric (smooth p l st).
Proof.
  intros Hp Hl. revert st. induction Hl as [ | x l Hx Hl IH ]; intros st Hst.
  - constructor.
  - destruct Hst as (Hv & Hg & Hq). cbn [smooth prevGain prevLoss].
    constructor; [|apply IH; repeat split; cbn [prevValue prevGain prevLoss]];
      numeric.
Qed.

Lemma smooth_in_range (p : R) (l : list double) (st : rsi_state) :
  (1 <= p)%R -> nonneg_state st -> Forall in_range (smooth (of_R p) l st).
Proof.
  intros Hp. revert st. induction l as [ | x l IH ]; intros st (Hg & Hq).
  - constructor.
  - cbn [smooth prevGain prevLoss].
    set (t := sub x (prevValue st)).
    assert (Hg' : nonneg (div (if ltb t (of_R 0)
                               then mul (prevGain st) (sub (of_R p) (of_R 1))
                               else add (mul (prevGain st) (sub (of_R p) (of_R 1))) t)
                              (of_R p))).
    { apply nonneg_div; [|lra]. apply nonneg_gain_step.
      apply (nonneg_mul _ Hg). lra. }
    assert (Hq' : nonneg (div (if ltb t (of_R 0)
                               then sub (mul (prevLoss st) (sub (of_R p) (of_R 1))) t
                               else mul (prevLoss st) (sub (of_R p) (of_R 1)))
                              (of_R p))).
    { apply nonneg_div; [|lra]. apply nonneg_loss_step.
      apply (nonneg_mul _ Hq). lra. }
    constructor.
    + now apply rsi_sample_in_range.
    + apply IH. split; assumption.
Qed.

(** *** [TA_RSI] and its wrapper *)

Lemma TA_RSI_bad_period (l : list double) (w : nat) :
  w < 2 -> TA_RSI l w = Raise TA_BAD_PARAM.
Proof.
  intros Hw. unfold TA_RSI.
  destruct (Z.ltb_spec (Z.of_nat w) 2); [reflexivity | lia].
Qed.

Lemma TA_RSI_ok (l : list double) (w : nat) :
  2 <= w -> (Z.of_nat w <= 100000)%Z ->
  exists out,
    TA_RSI l w = Ok out /\
    length out = length l - w /\
    (all_numeric l -> all_numeric out) /\
    Forall in_range out.
Proof.
  intros Hw Hmax. unfold TA_RSI.
  destruct (Z.ltb_spec (Z.of_nat w) 2); [lia|].
  destruct (Z.ltb_spec 100000 (Z.of_nat w)); [lia|]. cbn [orb].
  destruct (Nat.leb_spec (length l) w) as [Hshort|Hlong].
  - exists []. repeat split; try constructor. simpl. lia.
  - destruct l as [ | first rest ]; [simpl in Hlong; lia|].
    simpl in Hlong.
    pose proof (accumulate_rest w rest (mk_rsi_state first (of_R 0) (of_R 0))) as Hrest.
    pose proof (accumulate_nonneg w rest (st := mk_rsi_state first (of_R 0) (of_R 0)))
      as Hpos.
    pose proof (@accumulate_numeric w rest (mk_rsi_state first (of_R 0) (of_R 0)))
      as Hnum.
    destruct (accumulate w rest (mk_rsi_state first (of_R 0) (of_R 0))) as [rest' st].
    simpl in Hrest, Hpos, Hnum. subst rest'.
    assert (Hw0 : (2 <= INR w)%R) by (change 2%R with (INR 2); now apply le_INR).
    assert (Hst0 : nonneg_state
              (mk_rsi_state (prevValue st) (div (prevGain st) (of_nat w))
                 (div (prevLoss st) (of_nat w)))).
    { destruct Hpos as (Hg & Hp); [split; simpl; lra|].
      split; apply nonneg_div; simpl; try assumption; lra. }
    eexists. split; [reflexivity|]. repeat split.
    + cbn [length]. rewrite smooth_length, length_skipn. lia.
    + intros Hl. inversion Hl as [ | ? ? Hfirst Hrest' ]; subst.
      destruct Hnum as (Hv & Hg & Hp);
        [assumption | split; [exact Hfirst | split; reflexivity] |].
      constructor; cbn [prevGain prevLoss]; [numeric|].
      apply smooth_numeric; [reflexivity | now apply Forall_skipn_keep |].
      repeat split; cbn [prevValue prevGain prevLoss]; numeric.
    + constructor; [apply rsi_sample_in_range; apply Hst0|].
      apply smooth_in_range; [lra | exact Hst0].
Qed.

Lemma leading_nans_le (real : Series) : leading_nans real <= length real.
Proof. induction real as [ | [x | ] real IH ]; simpl; lia. Qed.

Lemma leading_nans_numeric (real : Series) :
  all_numeric real -> leading_nans real = 0.
Proof. destruct 1 as [ | [x | ] real Hx _ ]; simpl; [reflexivity..|discriminate]. Qed.

Lemma RSI_bad_period (real : Series) (w : nat) :
  w < 2 -> RSI real w = Raise TA_BAD_PARAM.
Proof. intros Hw. unfold RSI. now rewrite TA_RSI_bad_period. Qed.

Lemma Forall_repeat_NaN (P : double -> Prop) (n : nat) :
  P NaN -> Forall P (repeat NaN n).
Proof. intros H. induction n; simpl; auto. Qed.

(** For a valid period the wrapper returns an array as long as its input;
    its numbers lie in [0, 100]. *)
Lemma RSI_ok (real : Series) (w : nat) :
  2 <= w -> (Z.of_nat w <= 100000)%Z ->
  exists out,
    RSI real w = Ok out /\ length out = length real /\ Forall in_range out.
Proof.
  intros Hw Hmax. unfold RSI.
  destruct (TA_RSI_ok (skipn (leading_nans real) real) Hw Hmax)
    as (out & -> & Hlen & _ & Hrange).
  eexists. split; [reflexivity|]. split.
  - rewrite length_app, repeat_length, Hlen, length_skipn.
    pose proof (leading_nans_le real). lia.
  - apply Forall_app. split; [|assumption].
    apply Forall_repeat_NaN. exact I.
Qed.

(** On numeric prices the first [w] rows are missing and every later row is
    a number. *)
Lemma RSI_numeric (real : Series) (w : nat) :
  2 <= w -> (Z.of_nat w <= 100000)%Z -> all_numeric real ->
  exists out, RSI real w = Ok out /\ warm_up w (length real) out.
Proof.
  intros Hw Hmax Hnum. unfold RSI.
  rewrite (leading_nans_numeric Hnum). cbn [skipn Nat.add].
  destruct (TA_RSI_ok real Hw Hmax) as (out & -> & Hlen & Hout & _).
  specialize (Hout Hnum).
  eexists. split; [reflexivity|]. split.
  - rewrite length_app, repeat_length, Hlen. lia.
  - intros i Hi. split; intros Hiw.
    + unfold missing_at. rewrite nth_error_app1 by (rewrite repeat_length; lia).
      apply nth_error_repeat. lia.
    + unfold numeric_at.
      rewrite nth_error_app2 by (rewrite repeat_length; lia).
      rewrite repeat_length.
      destruct (nth_error out (i - Nat.min w (length real))) as [[v|]|] eqn:E.
      * now exists v.
      * apply nth_error_In in E. unfold all_numeric in Hout.
        rewrite Forall_forall in Hout. apply Hout in E. discriminate.
      * apply nth_error_None in E. lia.
Qed.

End RsiFacts.

(** ** The indicator series (claims C1 to C4) *)

Section IndicatorClaims.

Import Indicators.

Lemma ltb_ge (x y : R) : (y <= x)%R -> ltb (Some x) (Some y) = false.
Proof. intros H. unfold ltb. destruct (Rlt_dec x y); [lra | reflexivity]. Qed.

Example sma_prices3 :
  sma prices3 2
  = [NaN; Some ((1 + (2 + 0)) / INR 2)%R; Some ((2 + (3 + 0)) / INR 2)%R].
Proof. reflexivity. Qed.

Example rolling_std_one_price : rolling_std 1 [Some 1%R] = [NaN].
Proof. reflexivity. Qed.

Example rsi_refuses_period_1 : rsi prices3 1 = Raise TA_BAD_PARAM.
Proof. reflexivity. Qed.

Lemma sma_warm_up (w : nat) (close : Series) :
  all_numeric close -> 1 <= w ->
  warm_up (w - 1) (length close) (sma close w).
Proof.
  intros Hnum Hw. split; [apply rolling_mean_length|].
  intros i Hi. split; intros Hiw.
  - apply rolling_mean_early; [assumption | lia].
  - apply rolling_mean_late; try assumption; lia.
Qed.

Lemma bands_warm_up (w : nat) (close : Series) (k : R) :
  all_numeric close -> 2 <= w ->
  warm_up (w - 1) (length close) (upper_band close w (of_R k)) /\
  warm_up (w - 1) (length close) (lower_band close w (of_R k)).
Proof.
  intros Hnum Hw.
  split; (split; [first [apply upper_band_length | apply lower_band_length]|]);
    intros i Hi;
    pose proof (rolling_mean_nth w close Hi) as Hm;
    pose proof (rolling_std_nth w close Hi) as Hsd;
    (split; intros Hiw;
     [ assert (He : missing_at (rolling_mean w close) i)
         by (apply rolling_mean_early; [assumption | lia]);
       unfold missing_at in *; rewrite Hm in He; injection He as He;
       first [ rewrite (upper_band_nth _ _ _ _ Hm Hsd)
             | rewrite (lower_band_nth _ _ _ _ Hm Hsd) ];
       rewrite He; reflexivity
     | destruct (@rolling_mean_late w close i) as [m Em]; try assumption; try lia;
       destruct (@rolling_std_late w close i) as [sd Esd]; try assumption; try lia;
       unfold numeric_at;
       first [ rewrite (upper_band_nth _ _ (of_R k) _ Em Esd)
             | rewrite (lower_band_nth _ _ (of_R k) _ Em Esd) ];
       simpl; eexists; reflexivity ]).
Qed.

(** [talib.RSI] of the prices 1, 2, 3 with period 2: two missing rows, then
    100 (the prices only rose). *)
Lemma rsi_prices3 :
  exists v, rsi prices3 2 = Ok [NaN; NaN; Some v] /\ v = 100%R.
Proof.
  unfold rsi, Talib.RSI, prices3. cbn [Talib.leading_nans skipn Nat.add].
  unfold Talib.TA_RSI.
  cbn [Z.of_nat Pos.of_succ_nat Pos.succ Z.ltb Z.compare Pos.compare
       Pos.compare_cont orb length Nat.leb].
  cbn [Talib.accumulate Talib.prevValue Talib.prevGain Talib.prevLoss sub lift2 of_R].
  rewrite !ltb_ge by lra.
  cbn [Talib.accumulate Talib.prevValue Talib.prevGain Talib.prevLoss sub add
       lift2 of_R div of_nat Talib.smooth].
  unfold Talib.rsi_sample, Talib.TA_IS_ZERO. cbn [add lift2 of_R INR].
  rewrite (ltb_ge (y := Talib.TA_EPSILON)) by (unfold Talib.TA_EPSILON; lra).
  rewrite andb_false_r. cbn [negb mul div lift2 of_R Nat.min repeat app].
  eexists. split; [reflexivity|]. field.
Qed.

(** C1, as stated, fails: with window 2 on the prices 1, 2, 3 the RSI is
    still missing at row 1, where the claim wants the first number; and with
    window 1 on one price both Bollinger bands are missing at row 0. *)
Lemma first_rows_claim_fails :
  (all_numeric prices3 /\ 1 <= 2 <= length prices3 /\ ~ first_rows_claim 2 prices3) /\
  (all_numeric [Some 1%R] /\ 1 <= 1 <= length [Some 1%R]
   /\ ~ first_rows_claim 1 [Some 1%R]).
Proof.
  split; (split; [repeat constructor|]); (split; [simpl; lia|]).
  - intros (_ & _ & out & Hout & _ & Hrows).
    destruct rsi_prices3 as (v & Hv & _). rewrite Hv in Hout.
    injection Hout as <-.
    destruct (Hrows 1) as [_ Hnum]; [simpl; lia|].
    destruct Hnum as [x Hx]; [simpl; lia|]. discriminate Hx.
  - intros (_ & Hbands & _).
    destruct (Hbands 1%R) as [(_ & Hrows) _].
    destruct (Hrows 0) as [_ Hnum]; [simpl; lia|].
    destruct Hnum as [x Hx]; [simpl; lia|]. discriminate Hx.
Qed.

(** C1, amended: on numeric closes and [1 <= w <= n], every indicator series
    has [n] rows; the SMA has exactly its first [w - 1] rows missing; so have
    both Bollinger bands when [2 <= w]; the RSI, for a period in TA-Lib's
    range 2..100000, has exactly its first [w] rows missing. *)
Theorem indicators_warm_up (w : nat) (close : Series) :
  all_numeric close -> 1 <= w <= length close ->
  warm_up (w - 1) (length close) (sma close w) /\
  (2 <= w -> forall k : R,
      warm_up (w - 1) (length close) (upper_band close w (of_R k)) /\
      warm_up (w - 1) (length close) (lower_band close w (of_R k))) /\
  (2 <= w -> (Z.of_nat w <= 100000)%Z ->
   exists out, rsi close w = Ok out /\ warm_up w (length close) out).
Proof.
  intros Hnum [Hw1 Hwn]. split; [now apply sma_warm_up|]. split.
  - intros Hw2 k. now apply bands_warm_up.
  - intros Hw2 Hmax. now apply RSI_numeric.
Qed.

Lemma indicators_warm_up_witness :
  warm_up (2 - 1) (length prices3) (sma prices3 2) /\
  (2 <= 2 -> forall k : R,
      warm_up (2 - 1) (length prices3) (upper_band prices3 2 (of_R k)) /\
      warm_up (2 - 1) (length prices3) (lower_band prices3 2 (of_R k))) /\
  (2 <= 2 -> (Z.of_nat 2 <= 100000)%Z ->
   exists out, rsi prices3 2 = Ok out /\ warm_up 2 (length prices3) out).
Proof.
  apply (@indicators_warm_up 2 prices3).
  - repeat constructor.
  - simpl. lia.
Defined.

(** C3: wherever the mean and both Bollinger bands are numbers, the upper
    band is at least the mean and the mean at least the lower band, for
    every multiplier [k > 0]. *)
Theorem bollinger_bands_enclose_mean
    (close : Series) (w : nat) (k : R) (i : nat) (m u l : R) :
  (0 < k)%R ->
  nth_error (rolling_mean w close) i = Some (Some m) ->
  nth_error (upper_band close w (of_R k)) i = Some (Some u) ->
  nth_error (lower_band close w (of_R k)) i = Some (Some l) ->
  (l <= m <= u)%R.
Proof.
  intros Hk Hm Hu Hl.
  assert (Hi : i < length close).
  { rewrite <- (rolling_mean_length w close). apply nth_error_Some. congruence. }
  pose proof (rolling_std_nth w close Hi) as Hsd.
  rewrite (upper_band_nth _ _ (of_R k) _ Hm Hsd) in Hu.
  rewrite (lower_band_nth _ _ (of_R k) _ Hm Hsd) in Hl.
  destruct (calc_var w 1 (observations (window_at w close i))) as [var|];
    simpl in Hu, Hl; [|discriminate].
  injection Hu as <-. injection Hl as <-.
  pose proof (sqrt_pos var). nra.
Qed.

Lemma bollinger_bands_enclose_mean_witness :
  exists m u l : R,
    nth_error (rolling_mean 2 prices3) 1 = Some (Some m) /\
    nth_error (upper_band prices3 2 (of_R 2)) 1 = Some (Some u) /\
    nth_error (lower_band prices3 2 (of_R 2)) 1 = Some (Some l) /\
    (l <= m <= u)%R.
Proof.
  eexists. eexists. eexists.
  split; [reflexivity|]. split; [reflexivity|]. split; [reflexivity|].
  apply (@bollinger_bands_enclose_mean prices3 2 2 1).
  - lra.
  - reflexivity.
  - reflexivity.
  - reflexivity.
Defined.

(** C4: whenever [talib.RSI] accepts the period, every number of its output
    lies in the closed interval from 0 to 100. *)
Theorem rsi_within_0_100 (close : Series) (w : nat) (out : Series) (i : nat) (v : R) :
  rsi close w = Ok out ->
  nth_error out i = Some (Some v) ->
  (0 <= v <= 100)%R.
Proof.
  intros Hout Hv. unfold rsi in Hout.
  destruct (Nat.lt_ge_cases w 2) as [Hlt|Hge].
  { rewrite RSI_bad_period in Hout by assumption. discriminate. }
  destruct (Z.le_gt_cases (Z.of_nat w) 100000) as [Hmax|Hbig].
  - destruct (RSI_ok close Hge Hmax) as (out' & Hout' & _ & Hrange).
    rewrite Hout' in Hout. injection Hout as <-.
    rewrite Forall_forall in Hrange.
    apply (Hrange (Some v)). eapply nth_error_In. exact Hv.
  - unfold Talib.RSI, Talib.TA_RSI in Hout.
    destruct (Z.ltb_spec 100000 (Z.of_nat w)); [|lia].
    rewrite orb_true_r in Hout. discriminate.
Qed.

Lemma rsi_within_0_100_witness :
  exists (out : Series) (v : R),
    rsi prices3 2 = Ok out /\ nth_error out 2 = Some (Some v) /\ (0 <= v <= 100)%R.
Proof.
  destruct rsi_prices3 as (v & Hv & _).
  exists [NaN; NaN; Some v], v.
  split; [exact Hv|]. split; [reflexivity|].
  apply (@rsi_within_0_100 prices3 2 [NaN; NaN; Some v] 2 v Hv). reflexivity.
Defined.

End IndicatorClaims.

(** ** Runs of the script *)

Section RunFacts.

Import App.

Lemma bind_ok (A B : Type) (m : run A) (k : A -> run B) (a : A) :
  outcome m = Ok a -> bind m k = (log m ++ log (k a), outcome (k a)).
Proof. unfold bind, outcome, log. intros ->. reflexivity. Qed.

Lemma bind_emit (B : Type) (c : call) (k : unit -> run B) :
  bind (emit c) k = (c :: log (k tt), outcome (k tt)).
Proof. reflexivity. Qed.

Lemma bind_lift_ok (A B : Type) (a : A) (k : A -> run B) :
  bind (lift (Ok a)) k = k a.
Proof. unfold bind, lift. simpl. now destruct (k a). Qed.

Lemma stock_parameters_ok (w : World) (ui : Inputs) (tickers : list string) (d : dict) :
  outcome (stock_parameters w ui tickers d) = Ok tt.
Proof. unfold stock_parameters. destruct (date_gt _ _); reflexivity. Qed.

Lemma technical_analysis_parameters_ok :
  outcome technical_analysis_parameters = Ok tt.
Proof. reflexivity. Qed.

Lemma load_data_ok (w : World) (symbol : string) (start finish : date) (raw : RawFrame) :
  yf_download w symbol start finish = Ok raw ->
  load_data w symbol start finish
  = ([load_data_call symbol start finish], Ok (first_level raw)).
Proof. intros H. unfold load_data, bind, emit, lift, ret. simpl. now rewrite H. Qed.

Lemma load_data_raise (w : World) (symbol : string) (start finish : date) (e : fault) :
  yf_download w symbol start finish = Raise e ->
  load_data w symbol start finish = ([load_data_call symbol start finish], Raise e).
Proof. intros H. unfold load_data, bind, emit, lift, ret. simpl. now rewrite H. Qed.

(** What step 4 does when the loader returns and the selection exists. *)
Lemma content_run (w : World) (ui : Inputs) (raw : RawFrame) (selected : DataFrame) :
  yf_download w (ticker ui) (start_date ui) (end_date ui) = Ok raw ->
  getitems (first_level raw) (columns_to_show ui) = Ok selected ->
  content w ui = (content_calls w ui (first_level raw) selected, Ok (first_level raw)).
Proof.
  intros Hraw Hsel. unfold content. rewrite (load_data_ok _ _ _ _ Hraw).
  unfold bind, emit, lift, ret. cbn [fst snd]. rewrite Hsel. reflexivity.
Qed.

(** Step 4 returns a table only when the loader returned it and the
    selection exists. *)
Lemma content_inv (w : World) (ui : Inputs) (df : DataFrame) :
  outcome (content w ui) = Ok df ->
  exists raw selected,
    yf_download w (ticker ui) (start_date ui) (end_date ui) = Ok raw /\
    df = first_level raw /\
    getitems df (columns_to_show ui) = Ok selected.
Proof.
  intros H.
  destruct (yf_download w (ticker ui) (start_date ui) (end_date ui)) as [raw|e] eqn:Hraw.
  - destruct (getitems (first_level raw) (columns_to_show ui)) as [sel|e] eqn:Hsel.
    + rewrite (content_run _ _ Hraw Hsel) in H. injection H as <-.
      now exists raw, sel.
    + exfalso. revert H. unfold content. rewrite (load_data_ok _ _ _ _ Hraw).
      unfold bind, emit, lift, ret, outcome. cbn [fst snd]. rewrite Hsel.
      discriminate.
  - exfalso. revert H. unfold content. rewrite (load_data_raise _ _ _ _ Hraw).
    unfold bind, emit, lift, ret, outcome. cbn [fst snd]. discriminate.
Qed.

(** Binding a continuation only extends the log. *)
Lemma log_bind_prefix (A B : Type) (m : run A) (k : A -> run B) :
  exists rest, log (bind m k) = log m ++ rest.
Proof.
  unfold bind, log. destruct (snd m) as [a|e]; cbn [fst].
  - now exists (fst (k a)).
  - exists []. now rewrite app_nil_r.
Qed.

Lemma in_log_bind (A B : Type) (m : run A) (k : A -> run B) (c : call) :
  In c (log m) -> In c (log (bind m k)).
Proof.
  intros H. destruct (log_bind_prefix m k) as [rest ->].
  apply in_or_app. now left.
Qed.

Lemma in_log_after_emit (B : Type) (c' : call) (k : unit -> run B) (c : call) :
  In c (log (k tt)) -> In c (log (bind (emit c') k)).
Proof. intros H. rewrite bind_emit. now right. Qed.

(** Step 4 always reaches the loader, with the ticker and the two dates of
    the widgets. *)
Lemma content_calls_loader (w : World) (ui : Inputs) :
  In (load_data_call (ticker ui) (start_date ui) (end_date ui)) (log (content w ui)).
Proof.
  unfold content. do 2 apply in_log_after_emit. apply in_log_bind.
  unfold load_data. rewrite bind_emit. now left.
Qed.

(** The log of the page, step by step, when step 4 returns [df]. *)
Lemma page_run (w : World) (ui : Inputs) (tickers : list string) (d : dict)
    (df : DataFrame) :
  outcome (content w ui) = Ok df ->
  page w ui tickers d
  = (log (stock_parameters w ui tickers d) ++ log technical_analysis_parameters
     ++ log (content w ui) ++ log (plotting ui d df),
     outcome (plotting ui d df)).
Proof.
  intros Hdf. unfold page, pipeline.
  erewrite bind_ok by apply stock_parameters_ok.
  erewrite bind_ok by apply technical_analysis_parameters_ok.
  erewrite bind_ok by exact Hdf. reflexivity.
Qed.

Lemma plotting_empty (ui : Inputs) (d : dict) (df : DataFrame) :
  Frame.empty df = true ->
  plotting ui d df
  = ([go_Figure; st_error "No Data Available for the Selected Stock and Date range"],
     Ok tt).
Proof. intros H. unfold plotting. rewrite bind_emit, H. reflexivity. Qed.

End RunFacts.

(** ** The chart composer *)

Section ChartFacts.

Import App.

Lemma rsi_traces_run (ui : Inputs) (df : DataFrame) (close rsi : Series) :
  getitem df "Close" = Ok close ->
  Indicators.rsi close (rsi_periods ui) = Ok rsi ->
  rsi_traces ui df
  = ([ fig_add_trace
         (Scatter (index df) rsi "lines" ("RSI " ++ str_of_nat (rsi_periods ui))
            (mk_line "green" None));
       fig_add_hline (rsi_upper ui) (mk_line "red" (Some "dot"%string));
       fig_add_hline (rsi_lower ui) (mk_line "red" (Some "dot"%string)) ],
     Ok tt).
Proof.
  intros Hc Hr. unfold rsi_traces. rewrite Hc, bind_lift_ok, Hr, bind_lift_ok.
  reflexivity.
Qed.

Lemma volume_trace_run (df : DataFrame) (volume : Series) :
  getitem df "Volume" = Ok volume ->
  volume_trace df
  = ([ fig_add_trace (Bar (index df) volume "Volume" "rgba(255, 153, 51, 0.6)") ],
     Ok tt).
Proof. intros Hv. unfold volume_trace. rewrite Hv, bind_lift_ok. reflexivity. Qed.

Lemma sma_trace_run (ui : Inputs) (df : DataFrame) (close : Series) :
  getitem df "Close" = Ok close ->
  sma_trace ui df
  = ([ fig_add_trace
         (Scatter (index df) (Indicators.sma close (sma_periods ui)) "lines"
            ("SMA " ++ str_of_nat (sma_periods ui)) (mk_line "blue" None)) ],
     Ok tt).
Proof. intros Hc. unfold sma_trace. rewrite Hc, bind_lift_ok. reflexivity. Qed.

Lemma bollinger_traces_run (ui : Inputs) (df : DataFrame) (close : Series) :
  getitem df "Close" = Ok close ->
  bollinger_traces ui df
  = ([ fig_add_trace
         (Scatter (index df)
            (Indicators.upper_band close (bb_periods ui) (of_nat (bb_std ui)))
            "lines" "Upper Bollinger Band" (mk_line "red" (Some "dash"%string)));
       fig_add_trace
         (Scatter (index df)
            (Indicators.lower_band close (bb_periods ui) (of_nat (bb_std ui)))
            "lines" "Lower Bollinger Band" (mk_line "red" (Some "dash"%string))) ],
     Ok tt).
Proof. intros Hc. unfold bollinger_traces. rewrite Hc, bind_lift_ok. reflexivity. Qed.

Lemma figure_calls_app (l1 l2 : list call) :
  figure_calls (l1 ++ l2) = figure_calls l1 ++ figure_calls l2.
Proof. apply filter_app. Qed.

Lemma chart_calls_app (l1 l2 : list call) :
  chart_calls (l1 ++ l2) = chart_calls l1 ++ chart_calls l2.
Proof. apply filter_app. Qed.

Lemma figure_calls_expected (ui : Inputs) (df : DataFrame)
    (open close high low volume rsi : Series) :
  figure_calls (expected_figure_calls ui df open close high low volume rsi)
  = expected_figure_calls ui df open close high low volume rsi.
Proof.
  unfold expected_figure_calls.
  destruct (rsi_flag ui), (volume_flag ui), (sma_flag ui), (bb_flag ui); reflexivity.
Qed.

Lemma figure_calls_show_chart (ui : Inputs) (d : dict) :
  figure_calls (log (show_chart ui d)) = [].
Proof.
  unfold show_chart. destruct (dict_getitem d (ticker ui)); reflexivity.
Qed.

Lemma figure_calls_stock_parameters (w : World) (ui : Inputs) (tickers : list string)
    (d : dict) :
  figure_calls (log (stock_parameters w ui tickers d)) = [].
Proof. unfold stock_parameters. destruct (date_gt _ _); reflexivity. Qed.

Lemma chart_calls_stock_parameters (w : World) (ui : Inputs) (tickers : list string)
    (d : dict) :
  chart_calls (log (stock_parameters w ui tickers d)) = [].
Proof. unfold stock_parameters. destruct (date_gt _ _); reflexivity. Qed.

End ChartFacts.

(** ** A written CSV text is read back as its rows *)

Section ReaderFacts.

Import CsvReader.
Local Open Scope string_scope.

Lemma append_nil_r (s : string) : s ++ "" = s.
Proof. induction s as [ | c s IH ]; [reflexivity | cbn; now rewrite IH]. Qed.

Lemma append_assoc (s t u : string) : (s ++ t) ++ u = s ++ (t ++ u).
Proof. induction s as [ | c s IH ]; [reflexivity | cbn; now rewrite IH]. Qed.

Lemma special_false (c : ascii) :
  special c = false ->
  Ascii.eqb c "," = false /\ Ascii.eqb c "034" = false /\
  Ascii.eqb c "010" = false /\ Ascii.eqb c "013" = false.
Proof.
  unfold special, quotechar. intros H.
  apply orb_false_elim in H. destruct H as [H H4].
  apply orb_false_elim in H. destruct H as [H H3].
  apply orb_false_elim in H. destruct H as [H1 H2].
  auto.
Qed.

(** A bare field is read to its end. *)
Lemma read_bare (f acc : string) (row : list string) (rest : string) :
  needs_quotes f = false ->
  read_from bare acc row (f ++ rest) = read_from bare (acc ++ f) row rest.
Proof.
  revert acc. induction f as [ | c f IH ]; intros acc Hf.
  - now rewrite append_nil_r.
  - cbn [needs_quotes] in Hf. apply orb_false_elim in Hf. destruct Hf as [Hc Hf].
    destruct (@special_false c Hc) as (H1 & H2 & H3 & H4).
    cbn [append read_from]. rewrite H1, H3, H4.
    rewrite (IH _ Hf). unfold snoc. now rewrite append_assoc.
Qed.

(** A quoted field is read to its closing quote, the doubled quotes halved. *)
Lemma read_quoted (f acc : string) (row : list string) (rest : string) :
  read_from quoted acc row (double_quotes f ++ String quotechar rest)
  = read_from quote_seen (acc ++ f) row rest.
Proof.
  revert acc. induction f as [ | c f IH ]; intros acc.
  - rewrite append_nil_r. reflexivity.
  - cbn [double_quotes]. destruct (Ascii.eqb c quotechar) eqn:Hc.
    + apply Ascii.eqb_eq in Hc. subst c.
      cbn [append read_from]. unfold quotechar at 1 2. cbn [Ascii.eqb Bool.eqb].
      rewrite IH. unfold snoc. now rewrite append_assoc.
    + cbn [append read_from]. unfold quotechar in Hc. rewrite Hc.
      rewrite IH. unfold snoc. now rewrite append_assoc.
Qed.

Lemma read_field (f : string) (row : list string) (rest : string) :
  separated rest ->
  read_from field_start "" row (csv_field f ++ rest) = read_from bare f row rest.
Proof.
  intros (c & rest' & -> & Hc). unfold csv_field.
  destruct (needs_quotes f) eqn:Hf.
  - cbn [append read_from]. unfold quotechar at 1. cbn [Ascii.eqb Bool.eqb].
    rewrite append_assoc. cbn [append]. rewrite read_quoted. cbn [append].
    destruct Hc as [-> | [-> | ->]]; reflexivity.
  - destruct f as [ | a f ].
    + destruct Hc as [-> | [-> | ->]]; reflexivity.
    + cbn [needs_quotes] in Hf. apply orb_false_elim in Hf. destruct Hf as [Ha Hf].
      destruct (@special_false a Ha) as (H1 & H2 & H3 & H4).
      cbn [append read_from]. rewrite H1, H2, H3, H4.
      now rewrite (@read_bare f _ row _ Hf).
Qed.

Lemma read_first_field (f : string) (rest : string) :
  separated rest ->
  f <> "" \/ (exists rest', rest = String "," rest') ->
  read_from record_start "" [] (csv_field f ++ rest) = read_from bare f [] rest.
Proof.
  intros (c & rest' & -> & Hc) Hne. unfold csv_field.
  destruct (needs_quotes f) eqn:Hf.
  - cbn [append read_from]. unfold quotechar at 1. cbn [Ascii.eqb Bool.eqb].
    rewrite append_assoc. cbn [append]. rewrite read_quoted. cbn [append].
    destruct Hc as [-> | [-> | ->]]; reflexivity.
  - destruct f as [ | a f ].
    + destruct Hne as [Hne | (r & Hr)]; [congruence|].
      injection Hr as -> ->. reflexivity.
    + cbn [needs_quotes] in Hf. apply orb_false_elim in Hf. destruct Hf as [Ha Hf].
      destruct (@special_false a Ha) as (H1 & H2 & H3 & H4).
      cbn [append read_from]. rewrite H1, H2, H3, H4.
      now rewrite (@read_bare f _ [] _ Hf).
Qed.

Lemma concat_row_tail (t : string) (f : string) (fields : list string) (rest : string) :
  (String.concat "," (map csv_field (f :: fields)) ++ t) ++ rest
  = csv_field f ++ row_tail t fields rest.
Proof.
  revert f. induction fields as [ | g fields IH ]; intros f.
  - cbn [map String.concat row_tail]. now rewrite append_assoc.
  - change (String.concat "," (map csv_field (f :: g :: fields)))
      with (csv_field f ++ "," ++ String.concat "," (map csv_field (g :: fields))).
    rewrite !append_assoc. cbn [row_tail]. f_equal.
    cbn [append]. f_equal. rewrite <- IH. now rewrite append_assoc.
Qed.

Lemma row_tail_separated (t : string) (fields : list string) (rest : string) :
  is_linesep t -> separated (row_tail t fields rest).
Proof.
  intros Ht. destruct fields as [ | f fields ].
  - destruct Ht as [-> | ->]; cbn; eexists; eexists; split; try reflexivity; auto.
  - cbn. eexists; eexists; split; [reflexivity | auto].
Qed.

Lemma read_row_tail (t : string) (fields : list string) (f : string)
    (row : list string) (rest : string) :
  is_linesep t ->
  read_from bare f row (row_tail t fields rest)
  = (row ++ f :: fields)%list :: read_from record_start "" [] rest.
Proof.
  intros Ht. revert f row. induction fields as [ | g fields IH ]; intros f row.
  - destruct Ht as [-> | ->]; reflexivity.
  - cbn [row_tail read_from]. cbn [Ascii.eqb Bool.eqb].
    rewrite read_field by now apply row_tail_separated.
    rewrite IH. now rewrite <- app_assoc.
Qed.

(** One written row is read back as its fields. *)
Lemma read_csv_row (t : string) (fields : list string) (rest : string) :
  is_linesep t -> fields <> [] ->
  read_from record_start "" [] (csv_row t fields ++ rest)
  = fields :: read_from record_start "" [] rest.
Proof.
  intros Ht Hne. destruct fields as [ | f fields ]; [congruence|].
  assert (Hgen : f <> "" \/ fields <> [] ->
          read_from record_start "" [] 
            ((String.concat "," (map csv_field (f :: fields)) ++ t) ++ rest)
          = (f :: fields) :: read_from record_start "" [] rest).
  { intros Hf. rewrite concat_row_tail.
    rewrite read_first_field.
    - now rewrite read_row_tail.
    - now apply row_tail_separated.
    - destruct Hf as [Hf | Hf]; [now left | right].
      destruct fields as [ | g fields ]; [congruence|]. cbn. eexists. reflexivity. }
  unfold csv_row. destruct f as [ | a f ].
  - destruct fields as [ | g fields ].
    + destruct Ht as [-> | ->]; reflexivity.
    + apply Hgen. right. discriminate.
  - destruct fields; apply Hgen; left; discriminate.
Qed.

Lemma concat_rows_cons (x : string) (xs : list string) :
  String.concat "" (x :: xs) = x ++ String.concat "" xs.
Proof.
  destruct xs as [ | y xs ]; [cbn; now rewrite append_nil_r | reflexivity].
Qed.

(** A written text is read back as its rows. *)
Lemma read_csv_rows (t : string) (rows : list (list string)) :
  is_linesep t -> Forall (fun fields => fields <> []) rows ->
  read (String.concat "" (map (csv_row t) rows)) = rows.
Proof.
  intros Ht Hrows. unfold read.
  rewrite <- (append_nil_r (String.concat "" (map (csv_row t) rows))).
  induction Hrows as [ | fields rows Hf Hrows IH ]; [reflexivity|].
  cbn [map]. rewrite concat_rows_cons, append_assoc, read_csv_row by assumption.
  now rewrite IH.
Qed.

End ReaderFacts.

(** ** Column selection, the CSV text and its UTF-8 bytes *)

Section ExportFacts.

Import App.

Lemma lookup_in (cols : list (string * Series)) (key : string) :
  In key (map fst cols) -> exists s, lookup cols key = Some s.
Proof.
  induction cols as [ | [name s] cols IH ]; simpl; [contradiction|].
  intros [Heq | Hin].
  - subst. rewrite String.eqb_refl. now exists s.
  - destruct (String.eqb name key); [now exists s | now apply IH].
Qed.

(** [df[keys]] exists when every key is a column label; it holds, in the
    order asked, the columns so named. *)
Lemma getitems_incl (df : DataFrame) (keys : list string) :
  incl keys (columns_to_list df) ->
  getitems df keys
  = Ok (mk_frame (index_label df) (index df)
          (map (fun key => (key, column_of df key)) keys)).
Proof.
  intros Hincl. unfold getitems.
  assert (H : select (columns df) keys
              = Ok (map (fun key => (key, column_of df key)) keys)).
  { induction keys as [ | key keys IH ]; [reflexivity|].
    cbn [select map]. unfold column_of at 1.
    destruct (@lookup_in (columns df) key) as [s Hs].
    { apply Hincl. now left. }
    rewrite Hs, IH; [reflexivity|].
    intros k Hk. apply Hincl. now right. }
  now rewrite H.
Qed.

Lemma to_csv_selected (w : World) (df : DataFrame) (keys : list string) :
  to_csv (column_dtype w) (cell_repr w) (linesep w)
    (mk_frame (index_label df) (index df)
       (map (fun key => (key, column_of df key)) keys))
  = String.concat EmptyString (map (csv_row (linesep w)) (export_records w df keys)).
Proof.
  unfold to_csv, export_records, header_fields, columns_to_list.
  cbn [index_label index columns].
  cbn [map]. rewrite concat_rows_cons, !map_map. cbn [fst snd]. rewrite map_id.
  f_equal. f_equal. apply map_ext. intros i. unfold row_fields. now rewrite map_map.
Qed.

Lemma export_records_not_empty (w : World) (df : DataFrame) (cols : list string) :
  Forall (fun fields : list string => fields <> []) (export_records w df cols).
Proof.
  unfold export_records. constructor; [discriminate|].
  apply Forall_forall. intros fields Hin. apply in_map_iff in Hin.
  destruct Hin as (i & <- & _). discriminate.
Qed.

Example isoformat_pads : isoformat (mk_date 2023 1 3) = "2023-01-03"%string.
Proof. reflexivity. Qed.

Example to_csv_two_rows :
  to_csv sample_dtype sample_repr newline
    (mk_frame "Date" [mk_date 2023 1 3; mk_date 2023 1 4]
       [("Close"%string, [Some 1%R; NaN]); ("Volume"%string, [Some 1%R; Some 1%R])])
  = ("Date,Close,Volume" ++ newline ++ "2023-01-03,1.0,1" ++ newline
     ++ "2023-01-04,,1" ++ newline)%string.
Proof. reflexivity. Qed.

Example read_two_rows :
  CsvReader.read
    ("Date,Close,Volume" ++ crlf ++ "2023-01-03,1.0,1" ++ crlf
     ++ "2023-01-04,,1" ++ crlf)%string
  = [ ["Date"; "Close"; "Volume"]; ["2023-01-03"; "1.0"; "1"];
      ["2023-01-04"; ""; "1"] ]%string.
Proof. reflexivity. Qed.

Example read_quoted_field :
  CsvReader.read (csv_row newline ["a,b"; String quotechar "c"; ""]%string
                  ++ csv_row newline [""]%string)
  = [ ["a,b"; String quotechar "c"; ""]; [""] ]%string.
Proof. reflexivity. Qed.

Example encode_utf8_two_bytes :
  encode_utf8 (String (ascii_of_nat 233) "a") = ["195"%byte; "169"%byte; "a"%byte].
Proof. reflexivity. Qed.

Lemma decode_encode_char (c : ascii) (rest : list Byte.byte) :
  decode_utf8 (encode_char c ++ rest) = option_map (String c) (decode_utf8 rest).
Proof.
  destruct c as [[ | ] [ | ] [ | ] [ | ] [ | ] [ | ] [ | ] [ | ]]; reflexivity.
Qed.

(** Decoding the bytes of a text gives the text back. *)
Lemma decode_encode_utf8 (s : string) : decode_utf8 (encode_utf8 s) = Some s.
Proof.
  induction s as [ | c s IH ]; [reflexivity|].
  cbn [encode_utf8]. now rewrite decode_encode_char, IH.
Qed.

End ExportFacts.

(** ** The page (claims C5, C6, C8, C9, C10) *)

Section PageClaims.

Import App.

Lemma chart_calls_content (w : World) (ui : Inputs) (df : DataFrame) :
  outcome (content w ui) = Ok df -> chart_calls (log (content w ui)) = [].
Proof.
  intros H. destruct (@content_inv w ui df H) as (raw & sel & Hraw & -> & Hsel).
  now rewrite (@content_run w ui raw sel Hraw Hsel).
Qed.

Lemma figure_calls_content (w : World) (ui : Inputs) (df : DataFrame) :
  outcome (content w ui) = Ok df -> figure_calls (log (content w ui)) = [].
Proof.
  intros H. destruct (@content_inv w ui df H) as (raw & sel & Hraw & -> & Hsel).
  now rewrite (@content_run w ui raw sel Hraw Hsel).
Qed.

Lemma plotting_candlestick (ui : Inputs) (d : dict) (df : DataFrame)
    (open close high low : Series) :
  Frame.empty df = false ->
  getitem df "Open" = Ok open -> getitem df "Close" = Ok close ->
  getitem df "High" = Ok high -> getitem df "Low" = Ok low ->
  exists rest,
    log (plotting ui d df)
    = go_Figure :: fig_add_trace (Candlestick open close high low "Price" (index df))
        :: rest.
Proof.
  intros He Ho Hc Hh Hl. unfold plotting.
  rewrite bind_emit, He, Ho, bind_lift_ok, Hc, bind_lift_ok, Hh, bind_lift_ok,
    Hl, bind_lift_ok, bind_emit.
  eexists. reflexivity.
Qed.

Lemma pipeline_run (w : World) (ui : Inputs) (d : dict) (df : DataFrame) :
  outcome (content w ui) = Ok df ->
  pipeline w ui d
  = (log technical_analysis_parameters ++ log (content w ui) ++ log (plotting ui d df),
     outcome (plotting ui d df)).
Proof.
  intros Hdf. unfold pipeline.
  erewrite bind_ok by apply technical_analysis_parameters_ok.
  erewrite bind_ok by exact Hdf. reflexivity.
Qed.

(** C5: when the start date is after the end date the page logs the sidebar
    error and then runs the very pipeline it runs for valid dates: same
    outcome, the loader called with the two dates as entered, and, when the
    loader returns a table, the preview, the export and the chart composer
    on that table. *)
Theorem start_after_end_only_warns
    (w : World) (ui : Inputs) (tickers : list string) (d : dict) :
  date_gt (start_date ui) (end_date ui) = true ->
  log (page w ui tickers d)
  = [ sidebar_selectbox "Ticker" tickers d;
      sidebar_date_input "Start Date" (mk_date 2018 1 1);
      sidebar_date_input "End Date" (today w);
      sidebar_error "The End Date must fall after the Start Date" ]
    ++ log (pipeline w ui d)
  /\ outcome (page w ui tickers d) = outcome (pipeline w ui d)
  /\ In (load_data_call (ticker ui) (start_date ui) (end_date ui))
        (log (pipeline w ui d))
  /\ (forall raw,
        yf_download w (ticker ui) (start_date ui) (end_date ui) = Ok raw ->
        incl (columns_to_show ui) (columns_to_list (first_level raw)) ->
        exists selected,
          log (pipeline w ui d)
          = log technical_analysis_parameters
            ++ content_calls w ui (first_level raw) selected
            ++ log (plotting ui d (first_level raw))).
Proof.
  intros Hgt. unfold page, stock_parameters. rewrite Hgt.
  repeat split.
  - unfold pipeline.
    erewrite bind_ok by apply technical_analysis_parameters_ok.
    cbn [log fst]. apply in_or_app. right.
    apply (@in_log_bind _ _ (content w ui)). apply content_calls_loader.
  - intros raw Hraw Hincl.
    pose proof (@getitems_incl (first_level raw) (columns_to_show ui) Hincl) as Hsel.
    pose proof (@content_run w ui raw _ Hraw Hsel) as Hrun.
    eexists. rewrite (@pipeline_run w ui d (first_level raw)) by now rewrite Hrun.
    cbn [log fst]. now rewrite Hrun.
Qed.

Lemma start_after_end_only_warns_witness :
  log (page sample_world reversed_dates sample_tickers sample_companies)
  = [ sidebar_selectbox "Ticker" sample_tickers sample_companies;
      sidebar_date_input "Start Date" (mk_date 2018 1 1);
      sidebar_date_input "End Date" (today sample_world);
      sidebar_error "The End Date must fall after the Start Date" ]
    ++ log (pipeline sample_world reversed_dates sample_companies)
  /\ outcome (page sample_world reversed_dates sample_tickers sample_companies)
     = outcome (pipeline sample_world reversed_dates sample_companies)
  /\ In (load_data_call (ticker reversed_dates) (start_date reversed_dates)
           (end_date reversed_dates))
        (log (pipeline sample_world reversed_dates sample_companies))
  /\ (forall raw,
        yf_download sample_world (ticker reversed_dates) (start_date reversed_dates)
          (end_date reversed_dates) = Ok raw ->
        incl (columns_to_show reversed_dates) (columns_to_list (first_level raw)) ->
        exists selected,
          log (pipeline sample_world reversed_dates sample_companies)
          = log technical_analysis_parameters
            ++ content_calls sample_world reversed_dates (first_level raw) selected
            ++ log (plotting reversed_dates sample_companies (first_level raw))).
Proof.
  apply (@start_after_end_only_warns sample_world reversed_dates sample_tickers
           sample_companies).
  reflexivity.
Defined.

Example sample_content_ok :
  outcome (content sample_world sample_inputs) = Ok (first_level sample_prices).
Proof. reflexivity. Qed.

Example reversed_content_ok :
  outcome (content sample_world reversed_dates) = Ok (first_level no_prices).
Proof. reflexivity. Qed.

(** C6: when the loaded table is empty the page makes no chart call at all
    (no trace, no threshold line, no layout, no rendering): the composer
    only creates the empty figure and shows the page error, and the run ends
    normally.  When the table is not empty and has its four price columns,
    the first chart call adds the candlestick trace. *)
Theorem empty_table_error_instead_of_chart
    (w : World) (ui : Inputs) (tickers : list string) (d : dict) (df : DataFrame) :
  outcome (content w ui) = Ok df ->
  (Frame.empty df = true ->
   chart_calls (log (page w ui tickers d)) = [] /\
   log (plotting ui d df)
   = [go_Figure; st_error "No Data Available for the Selected Stock and Date range"] /\
   (exists before,
       log (page w ui tickers d)
       = before
         ++ [go_Figure;
             st_error "No Data Available for the Selected Stock and Date range"]) /\
   outcome (page w ui tickers d) = Ok tt)
  /\
  (Frame.empty df = false ->
   forall open close high low : Series,
     getitem df "Open" = Ok open -> getitem df "Close" = Ok close ->
     getitem df "High" = Ok high -> getitem df "Low" = Ok low ->
     exists rest,
       chart_calls (log (page w ui tickers d))
       = fig_add_trace (Candlestick open close high low "Price" (index df)) :: rest).
Proof.
  intros Hdf. rewrite (@page_run w ui tickers d df Hdf). cbn [log outcome fst snd].
  rewrite !chart_calls_app, chart_calls_stock_parameters, (@chart_calls_content w ui df Hdf).
  split.
  - intros He. rewrite (@plotting_empty ui d df He). cbn [log outcome fst snd].
    repeat split.
    eexists. rewrite !app_assoc. reflexivity.
  - intros He open close high low Ho Hc Hh Hl.
    destruct (@plotting_candlestick ui d df open close high low He Ho Hc Hh Hl)
      as [rest ->].
    eexists. reflexivity.
Qed.

Lemma empty_table_error_instead_of_chart_witness :
  (Frame.empty (first_level no_prices) = true ->
   chart_calls (log (page sample_world reversed_dates sample_tickers sample_companies))
   = [] /\
   log (plotting reversed_dates sample_companies (first_level no_prices))
   = [go_Figure; st_error "No Data Available for the Selected Stock and Date range"] /\
   (exists before,
       log (page sample_world reversed_dates sample_tickers sample_companies)
       = before
         ++ [go_Figure;
             st_error "No Data Available for the Selected Stock and Date range"]) /\
   outcome (page sample_world reversed_dates sample_tickers sample_companies) = Ok tt)
  /\
  (Frame.empty (first_level no_prices) = false ->
   forall open close high low : Series,
     getitem (first_level no_prices) "Open" = Ok open ->
     getitem (first_level no_prices) "Close" = Ok close ->
     getitem (first_level no_prices) "High" = Ok high ->
     getitem (first_level no_prices) "Low" = Ok low ->
     exists rest,
       chart_calls (log (page sample_world reversed_dates sample_tickers sample_companies))
       = fig_add_trace
           (Candlestick open close high low "Price" (index (first_level no_prices)))
         :: rest).
Proof.
  apply (@empty_table_error_instead_of_chart sample_world reversed_dates sample_tickers
           sample_companies (first_level no_prices)).
  reflexivity.
Defined.

(** C9, on the code: with every overlay enabled and every number as its
    widget starts (RSI period 1), on a table of three rows, the candlestick
    is the only call that adds to the figure: [talib.RSI] refuses the
    period, the run faults with TA_BAD_PARAM, and neither the RSI line and
    its thresholds, nor the volume bars, nor the SMA line, nor the bands
    follow.  The sequence the specification lists for these inputs has
    eight calls, whatever the RSI series. *)
Theorem enabled_overlays_lost_at_rsi_period_1 :
  Frame.empty (first_level sample_prices) = false /\
  figure_calls
    (log (page sample_world every_overlay_at_defaults sample_tickers sample_companies))
  = [ fig_add_trace
        (Candlestick [Some 1%R; Some 2%R; Some 2%R] prices3
           [Some 2%R; Some 3%R; Some 4%R] [Some 1%R; Some 1%R; Some 2%R]
           "Price" (index (first_level sample_prices))) ] /\
  outcome (page sample_world every_overlay_at_defaults sample_tickers sample_companies)
  = Raise TA_BAD_PARAM /\
  forall rsi : Series,
    length
      (expected_figure_calls every_overlay_at_defaults (first_level sample_prices)
         [Some 1%R; Some 2%R; Some 2%R] prices3 [Some 2%R; Some 3%R; Some 4%R]
         [Some 1%R; Some 1%R; Some 2%R] [Some 100%R; Some 200%R; Some 300%R] rsi)
    = 8 /\
    figure_calls
      (log (page sample_world every_overlay_at_defaults sample_tickers sample_companies))
    <> expected_figure_calls every_overlay_at_defaults (first_level sample_prices)
         [Some 1%R; Some 2%R; Some 2%R] prices3 [Some 2%R; Some 3%R; Some 4%R]
         [Some 1%R; Some 1%R; Some 2%R] [Some 100%R; Some 200%R; Some 300%R] rsi.
Proof.
  assert (Hdf : outcome (content sample_world every_overlay_at_defaults)
                = Ok (first_level sample_prices)) by reflexivity.
  rewrite (@page_run sample_world every_overlay_at_defaults sample_tickers
             sample_companies _ Hdf).
  cbn [log outcome fst snd].
  rewrite !figure_calls_app, figure_calls_stock_parameters,
    (@figure_calls_content _ _ _ Hdf).
  split; [reflexivity|]. split; [reflexivity|]. split; [reflexivity|].
  intros rsi. split; [reflexivity|].
  intros H. apply (f_equal (@length call)) in H. discriminate H.
Qed.

(** C10: whenever the loader returns a table, empty or not, and the chosen
    columns are columns of it, the page logs the preview, the column
    selection and the download button, with the CSV bytes of the selection,
    before every call of the chart composer; on an empty table the composer
    then only creates the figure and shows the error, and the run ends
    normally. *)
Theorem export_precedes_emptiness_check
    (w : World) (ui : Inputs) (tickers : list string) (d : dict) (raw : RawFrame) :
  yf_download w (ticker ui) (start_date ui) (end_date ui) = Ok raw ->
  incl (columns_to_show ui) (columns_to_list (first_level raw)) ->
  exists selected,
    getitems (first_level raw) (columns_to_show ui) = Ok selected /\
    log (page w ui tickers d)
    = log (stock_parameters w ui tickers d) ++ log technical_analysis_parameters
      ++ content_calls w ui (first_level raw) selected
      ++ log (plotting ui d (first_level raw)) /\
    (Frame.empty (first_level raw) = true ->
     log (plotting ui d (first_level raw))
     = [go_Figure; st_error "No Data Available for the Selected Stock and Date range"]
     /\ outcome (page w ui tickers d) = Ok tt).
Proof.
  intros Hraw Hincl.
  pose proof (@getitems_incl (first_level raw) (columns_to_show ui) Hincl) as Hsel.
  pose proof (@content_run w ui raw _ Hraw Hsel) as Hrun.
  assert (Hdf : outcome (content w ui) = Ok (first_level raw)) by now rewrite Hrun.
  eexists. split; [exact Hsel|]. rewrite (@page_run w ui tickers d _ Hdf).
  cbn [log outcome fst snd]. rewrite Hrun. cbn [fst]. split; [reflexivity|].
  intros He. now rewrite (@plotting_empty ui d _ He).
Qed.

Lemma export_precedes_emptiness_check_witness :
  exists selected,
    getitems (first_level no_prices) (columns_to_show reversed_dates) = Ok selected /\
    log (page sample_world reversed_dates sample_tickers sample_companies)
    = log (stock_parameters sample_world reversed_dates sample_tickers sample_companies)
      ++ log technical_analysis_parameters
      ++ content_calls sample_world reversed_dates (first_level no_prices) selected
      ++ log (plotting reversed_dates sample_companies (first_level no_prices)) /\
    (Frame.empty (first_level no_prices) = true ->
     log (plotting reversed_dates sample_companies (first_level no_prices))
     = [go_Figure; st_error "No Data Available for the Selected Stock and Date range"]
     /\ outcome (page sample_world reversed_dates sample_tickers sample_companies)
        = Ok tt).
Proof.
  apply (@export_precedes_emptiness_check sample_world reversed_dates sample_tickers
           sample_companies no_prices).
  - reflexivity.
  - intros c Hc. exact Hc.
Defined.



End PageClaims.

(** ** The ticker directory loader and the widgets' starting values
       (claims C7, C2) *)

Section StartupAndDefaults.

Import App.

(** The request [get_sp500_components] sends, as [requests.get] builds it
    from its two positional arguments. *)
Lemma get_sp500_components_run (w : World) :
  exists e,
    get_sp500_components w
    = ([requests_get
          (mk_request sp500_url [("User-Agent", browser_user_agent)]%string
             (default_headers w))],
       Raise e).
Proof.
  unfold get_sp500_components, requests_dot_get.
  unfold bind, emit, lift, ret. cbn [fst snd app]. rewrite app_nil_r.
  destruct (http_get w _) as [resp|e]; cbn [fst snd response_getitem];
    eexists; reflexivity.
Qed.

(** C7, on the code: the one GET of [get_sp500_components] carries the
    browser user-agent as a query parameter; its [User-Agent] header is the
    default of [requests].  The loader then faults, in every world: the
    request fails, or the response is subscripted. *)
Theorem user_agent_sent_as_query_parameter (w : World) :
  exists req,
    log (get_sp500_components w) = [requests_get req] /\
    url req = sp500_url /\
    params req = [("User-Agent", browser_user_agent)]%string /\
    dict_get (headers req) "User-Agent"
    = Some ("python-requests/" ++ requests_version w)%string /\
    dict_get (headers req) "User-Agent" <> Some browser_user_agent /\
    exists e, outcome (get_sp500_components w) = Raise e.
Proof.
  destruct (get_sp500_components_run w) as [e ->].
  eexists. repeat split; try reflexivity; [discriminate | now exists e].
Qed.

(** The script never gets past line 34: it logs the sidebar header and the
    GET, and ends in a fault. *)
Theorem script_stops_at_the_directory_loader (w : World) (ui : Inputs) :
  exists req e,
    log (script w ui) = [sidebar_header "Stock Parameters"; requests_get req] /\
    outcome (script w ui) = Raise e.
Proof.
  destruct (get_sp500_components_run w) as [e Hrun].
  eexists. exists e. unfold script. rewrite bind_emit, Hrun. split; reflexivity.
Qed.

(** C2, on the code: with RSI enabled and the period the widget starts at
    (its minimum, 1), [talib.RSI] refuses the period on a series of three
    prices; the page has added the candlestick, faults with TA_BAD_PARAM and
    renders no chart. *)
Theorem rsi_period_1_faults :
  In (expander_number_input "Relative Strength Index" "RSI Periods" 1 20 None)
     (log (page sample_world rsi_period_1 sample_tickers sample_companies)) /\
  Indicators.rsi prices3 (rsi_periods rsi_period_1) = Raise TA_BAD_PARAM /\
  outcome (page sample_world rsi_period_1 sample_tickers sample_companies)
  = Raise TA_BAD_PARAM /\
  chart_calls (log (page sample_world rsi_period_1 sample_tickers sample_companies))
  = [ fig_add_trace
        (Candlestick [Some 1%R; Some 2%R; Some 2%R] prices3
           [Some 2%R; Some 3%R; Some 4%R] [Some 1%R; Some 1%R; Some 2%R]
           "Price" (index (first_level sample_prices))) ].
Proof.
  assert (Hdf : outcome (content sample_world rsi_period_1)
                = Ok (first_level sample_prices)) by reflexivity.
  rewrite (@page_run sample_world rsi_period_1 sample_tickers sample_companies _ Hdf).
  cbn [log outcome fst snd].
  split; [|split; [|split]].
  - apply in_or_app. right. apply in_or_app. left.
    cbn. do 11 right. now left.
  - reflexivity.
  - reflexivity.
  - rewrite !chart_calls_app, chart_calls_stock_parameters,
      (@chart_calls_content _ _ _ Hdf).
    reflexivity.
Qed.

(** Insufficient history: on a series shorter than the window every row of
    the SMA and of both bands is missing, and so is every row of the RSI for
    a period in TA-Lib's range; no call faults. *)
Theorem short_series_all_missing (w : nat) (close : Series) (k : double) :
  length close < w ->
  all_missing (length close) (Indicators.sma close w) /\
  all_missing (length close) (Indicators.upper_band close w k) /\
  all_missing (length close) (Indicators.lower_band close w k) /\
  (2 <= w -> (Z.of_nat w <= 100000)%Z ->
   Indicators.rsi close w = Ok (repeat NaN (length close))).
Proof.
  intros Hn. repeat split.
  - apply rolling_mean_length.
  - intros i Hi. apply rolling_mean_early; [assumption | lia].
  - apply upper_band_length.
  - intros i Hi. unfold missing_at.
    pose proof (@rolling_mean_early w close i Hi ltac:(lia)) as Hm.
    rewrite (@upper_band_nth close w k i _ _ Hm (rolling_std_nth w close Hi)).
    reflexivity.
  - apply lower_band_length.
  - intros i Hi. unfold missing_at.
    pose proof (@rolling_mean_early w close i Hi ltac:(lia)) as Hm.
    rewrite (@lower_band_nth close w k i _ _ Hm (rolling_std_nth w close Hi)).
    reflexivity.
  - intros Hw Hmax. unfold Indicators.rsi, Talib.RSI.
    destruct (@TA_RSI_ok (skipn (Talib.leading_nans close) close) w Hw Hmax)
      as (out & -> & Hlen & _ & _).
    rewrite length_skipn in Hlen.
    assert (out = []) by (destruct out; [reflexivity | simpl in Hlen; lia]).
    subst out. rewrite app_nil_r. f_equal. f_equal. lia.
Qed.

Lemma short_series_all_missing_witness :
  all_missing (length prices3) (Indicators.sma prices3 5) /\
  all_missing (length prices3) (Indicators.upper_band prices3 5 (of_nat 2)) /\
  all_missing (length prices3) (Indicators.lower_band prices3 5 (of_nat 2)) /\
  (2 <= 5 -> (Z.of_nat 5 <= 100000)%Z ->
   Indicators.rsi prices3 5 = Ok (repeat NaN (length prices3))).
Proof.
  apply (@short_series_all_missing 5 prices3 (of_nat 2)). simpl. lia.
Defined.

(** With a window of one row (the value the "BB Periods" widget starts at)
    both Bollinger bands are missing on every row: the sample deviation of
    one price does not exist. *)
Theorem bands_window_1_all_missing (close : Series) (k : double) :
  all_missing (length close) (Indicators.upper_band close 1 k) /\
  all_missing (length close) (Indicators.lower_band close 1 k).
Proof.
  split; (split; [first [apply upper_band_length | apply lower_band_length]|]);
    intros i Hi; unfold missing_at;
    pose proof (rolling_mean_nth 1 close Hi) as Hm;
    pose proof (@rolling_std_window_1 close i Hi) as Hsd;
    [ rewrite (@upper_band_nth close 1 k i _ _ Hm Hsd)
    | rewrite (@lower_band_nth close 1 k i _ _ Hm Hsd) ];
    destruct (calc_mean 1 (observations (window_at 1 close i))), k; reflexivity.
Qed.

End StartupAndDefaults.

(** ** Logs of composed runs *)

Section LogFacts.

Import App.

Lemma log_bind (A B : Type) (m : run A) (k : A -> run B) :
  log (bind m k)
  = log m ++ match outcome m with Ok a => log (k a) | Raise _ => [] end.
Proof.
  unfold bind, log, outcome. destruct (snd m); cbn [fst]; [reflexivity|].
  now rewrite app_nil_r.
Qed.

Lemma outcome_bind (A B : Type) (m : run A) (k : A -> run B) :
  outcome (bind m k)
  = match outcome m with Ok a => outcome (k a) | Raise e => Raise e end.
Proof. unfold bind, outcome. destruct (snd m); reflexivity. Qed.

Lemma run_pair (A : Type) (m : run A) : m = (log m, outcome m).
Proof. now destruct m. Qed.

Lemma log_all_bind (P : call -> Prop) (A B : Type) (m : run A) (k : A -> run B) :
  Forall P (log m) -> (forall a, Forall P (log (k a))) -> Forall P (log (bind m k)).
Proof.
  intros Hm Hk. rewrite log_bind. apply Forall_app. split; [assumption|].
  destruct (outcome m); [apply Hk | constructor].
Qed.

Lemma log_all_emit (P : call -> Prop) (c : call) : P c -> Forall P (log (emit c)).
Proof. intros H. repeat constructor. exact H. Qed.

Lemma log_all_lift (P : call -> Prop) (A : Type) (r : result A) : Forall P (log (lift r)).
Proof. constructor. Qed.

Lemma log_all_ret (P : call -> Prop) (A : Type) (a : A) : Forall P (log (ret a)).
Proof. constructor. Qed.

Lemma filter_none (f : call -> bool) (l : list call) :
  Forall (fun c => f c = false) l -> filter f l = [].
Proof.
  induction 1 as [ | c l Hc _ IH ]; [reflexivity|]. cbn [filter]. now rewrite Hc.
Qed.

Lemma not_in_of_all (f : call -> bool) (l : list call) (c : call) :
  Forall (fun c => f c = false) l -> f c = true -> ~ In c l.
Proof.
  intros Hall Hc Hin. rewrite Forall_forall in Hall. apply Hall in Hin. congruence.
Qed.

End LogFacts.

Section StageFacts.

Import App.

Variable f : call -> bool.

(** A kind of call that none of the chart stages makes. *)
Hypothesis f_trace : forall t, f (fig_add_trace t) = false.
Hypothesis f_hline : forall y l, f (fig_add_hline y l) = false.

Lemma rsi_traces_all (ui : Inputs) (df : DataFrame) :
  Forall (fun c => f c = false) (log (rsi_traces ui df)).
Proof.
  unfold rsi_traces. cbv zeta.
  repeat first [ apply log_all_lift | apply log_all_bind; [ | intros ? ]
               | apply log_all_emit; first [apply f_trace | apply f_hline] ].
Qed.

Lemma volume_trace_all (df : DataFrame) :
  Forall (fun c => f c = false) (log (volume_trace df)).
Proof.
  unfold volume_trace. cbv zeta.
  repeat first [ apply log_all_lift | apply log_all_bind; [ | intros ? ]
               | apply log_all_emit; first [apply f_trace | apply f_hline] ].
Qed.

Lemma sma_trace_all (ui : Inputs) (df : DataFrame) :
  Forall (fun c => f c = false) (log (sma_trace ui df)).
Proof.
  unfold sma_trace. cbv zeta.
  repeat first [ apply log_all_lift | apply log_all_bind; [ | intros ? ]
               | apply log_all_emit; first [apply f_trace | apply f_hline] ].
Qed.

Lemma bollinger_traces_all (ui : Inputs) (df : DataFrame) :
  Forall (fun c => f c = false) (log (bollinger_traces ui df)).
Proof.
  unfold bollinger_traces. cbv zeta.
  repeat first [ apply log_all_lift | apply log_all_bind; [ | intros ? ]
               | apply log_all_emit; first [apply f_trace | apply f_hline] ].
Qed.

End StageFacts.

(** ** Faults of the page *)

Section FaultFacts.

Import App.

Lemma page_log (w : World) (ui : Inputs) (tickers : list string) (d : dict) :
  log (page w ui tickers d)
  = log (stock_parameters w ui tickers d) ++ log technical_analysis_parameters
    ++ log (content w ui)
    ++ match outcome (content w ui) with
       | Ok df => log (plotting ui d df)
       | Raise _ => []
       end.
Proof.
  unfold page, pipeline.
  rewrite log_bind, stock_parameters_ok, log_bind, technical_analysis_parameters_ok,
    log_bind.
  reflexivity.
Qed.

Lemma page_outcome (w : World) (ui : Inputs) (tickers : list string) (d : dict) :
  outcome (page w ui tickers d)
  = match outcome (content w ui) with
    | Ok df => outcome (plotting ui d df)
    | Raise e => Raise e
    end.
Proof.
  unfold page, pipeline.
  rewrite outcome_bind, stock_parameters_ok, outcome_bind,
    technical_analysis_parameters_ok, outcome_bind.
  reflexivity.
Qed.

Lemma getitem_in (df : DataFrame) (key : string) :
  In key (columns_to_list df) -> exists s, getitem df key = Ok s.
Proof.
  intros Hin. unfold getitem.
  destruct (@lookup_in (columns df) key Hin) as [s ->]. now exists s.
Qed.

Lemma lookup_not_in (cols : list (string * Series)) (key : string) :
  ~ In key (map fst cols) -> lookup cols key = None.
Proof.
  induction cols as [ | [name s] cols IH ]; [reflexivity|].
  cbn [map fst In lookup]. intros Hnot.
  destruct (String.eqb_spec name key) as [Heq|Hne].
  - exfalso. apply Hnot. now left.
  - apply IH. intros Hin. apply Hnot. now right.
Qed.

Lemma getitem_not_in (df : DataFrame) (key : string) :
  ~ In key (columns_to_list df) -> getitem df key = Raise (KeyError key).
Proof. intros Hnot. unfold getitem. now rewrite (lookup_not_in _ _ Hnot). Qed.

(** The title lookup of [show_chart] for a ticker the directory lists. *)
Lemma show_chart_listed (ui : Inputs) (d : dict) (company : string) :
  dict_get d (ticker ui) = Some company ->
  show_chart ui d
  = ([ fig_update_layout (chart_layout (company ++ "'s Stock Price"));
       st_plotly_chart true ], Ok tt).
Proof.
  intros H. unfold show_chart, dict_getitem. rewrite H, bind_lift_ok. reflexivity.
Qed.

(** The composer up to the title lookup; the volume column and the RSI are
    needed only when their overlay is enabled. *)
Lemma plotting_steps (ui : Inputs) (d : dict) (df : DataFrame)
    (open close high low volume rsi : Series) :
  Frame.empty df = false ->
  getitem df "Open" = Ok open -> getitem df "Close" = Ok close ->
  getitem df "High" = Ok high -> getitem df "Low" = Ok low ->
  (volume_flag ui = true -> getitem df "Volume" = Ok volume) ->
  (rsi_flag ui = true -> Indicators.rsi close (rsi_periods ui) = Ok rsi) ->
  plotting ui d df
  = (go_Figure :: expected_figure_calls ui df open close high low volume rsi
       ++ log (show_chart ui d),
     outcome (show_chart ui d)).
Proof.
  intros He Ho Hc Hh Hl Hv Hr. unfold plotting, expected_figure_calls.
  rewrite bind_emit, He, Ho, bind_lift_ok, Hc, bind_lift_ok, Hh, bind_lift_ok,
    Hl, bind_lift_ok, bind_emit.
  unfold bind, ret, log, outcome.
  destruct (rsi_flag ui);
    [rewrite (@rsi_traces_run ui df close rsi Hc (Hr eq_refl))|];
    (destruct (volume_flag ui);
     [rewrite (@volume_trace_run df volume (Hv eq_refl))|]);
    destruct (sma_flag ui), (bb_flag ui); cbn [when];
    rewrite ?(@sma_trace_run ui df close Hc), ?(@bollinger_traces_run ui df close Hc);
    reflexivity.
Qed.

End FaultFacts.

(** ** What a run of the page does on each fault, and when it completes *)

Section PageRuns.

Import App.

(** A fault of the data provider is not handled: the page stops at the
    loader call with that fault and has shown neither preview, export nor
    chart. *)
Theorem provider_fault_stops_the_page
    (w : World) (ui : Inputs) (tickers : list string) (d : dict) (e : fault) :
  yf_download w (ticker ui) (start_date ui) (end_date ui) = Raise e ->
  page w ui tickers d
  = (log (stock_parameters w ui tickers d) ++ log technical_analysis_parameters
     ++ [ st_title "Technical Analysis of Companies listed in The S&P 500";
          st_write user_manual;
          load_data_call (ticker ui) (start_date ui) (end_date ui) ],
     Raise e).
Proof.
  intros Hraw.
  assert (Hc : content w ui
               = ([ st_title "Technical Analysis of Companies listed in The S&P 500";
                    st_write user_manual;
                    load_data_call (ticker ui) (start_date ui) (end_date ui) ],
                  Raise e)).
  { unfold content. rewrite (@load_data_raise w _ _ _ e Hraw). reflexivity. }
  rewrite (run_pair (page w ui tickers d)), page_log, page_outcome, Hc.
  cbn [log outcome fst snd]. now rewrite app_nil_r.
Qed.

Lemma provider_fault_stops_the_page_witness :
  page offline_world plain_inputs sample_tickers sample_companies
  = (log (stock_parameters offline_world plain_inputs sample_tickers sample_companies)
     ++ log technical_analysis_parameters
     ++ [ st_title "Technical Analysis of Companies listed in The S&P 500";
          st_write user_manual;
          load_data_call (ticker plain_inputs) (start_date plain_inputs)
            (end_date plain_inputs) ],
     Raise ProviderError).
Proof.
  apply (@provider_fault_stops_the_page offline_world plain_inputs sample_tickers
           sample_companies ProviderError).
  reflexivity.
Defined.

(** When a table that is not empty lacks one of Open, Close, High, Low, the
    composer faults with the KeyError of such a column right after creating
    the figure: no trace is added and nothing is rendered. *)
Theorem missing_price_column_faults_before_any_trace
    (w : World) (ui : Inputs) (tickers : list string) (d : dict) (df : DataFrame) :
  outcome (content w ui) = Ok df ->
  Frame.empty df = false ->
  ~ incl price_columns (columns_to_list df) ->
  exists key,
    In key price_columns /\
    ~ In key (columns_to_list df) /\
    plotting ui d df = ([go_Figure], Raise (KeyError key)) /\
    outcome (page w ui tickers d) = Raise (KeyError key) /\
    chart_calls (log (page w ui tickers d)) = [].
Proof.
  intros Hdf He Hnot.
  assert (Hp : exists key,
             In key price_columns /\ ~ In key (columns_to_list df) /\
             plotting ui d df = ([go_Figure], Raise (KeyError key))).
  { unfold plotting. rewrite bind_emit, He.
    destruct (in_dec string_dec "Open"%string (columns_to_list df)) as [Ho|Ho].
    2:{ exists "Open"%string. split; [now left|]. split; [assumption|].
        now rewrite (@getitem_not_in df _ Ho). }
    destruct (@getitem_in df _ Ho) as [o ->]. rewrite bind_lift_ok.
    destruct (in_dec string_dec "Close"%string (columns_to_list df)) as [Hc|Hc].
    2:{ exists "Close"%string. split; [right; now left|]. split; [assumption|].
        now rewrite (@getitem_not_in df _ Hc). }
    destruct (@getitem_in df _ Hc) as [c ->]. rewrite bind_lift_ok.
    destruct (in_dec string_dec "High"%string (columns_to_list df)) as [Hh|Hh].
    2:{ exists "High"%string. split; [right; right; now left|]. split; [assumption|].
        now rewrite (@getitem_not_in df _ Hh). }
    destruct (@getitem_in df _ Hh) as [h ->]. rewrite bind_lift_ok.
    destruct (in_dec string_dec "Low"%string (columns_to_list df)) as [Hl|Hl].
    2:{ exists "Low"%string. split; [right; right; right; now left|].
        split; [assumption|]. now rewrite (@getitem_not_in df _ Hl). }
    exfalso. apply Hnot. intros k Hk. cbn in Hk.
    destruct Hk as [ <- | [ <- | [ <- | [ <- | [] ]]]]; assumption. }
  destruct Hp as (key & Hin & Hout & Hp). exists key.
  split; [assumption|]. split; [assumption|]. split; [assumption|].
  rewrite page_outcome, page_log, Hdf, Hp. cbn [log outcome fst snd]. split; [reflexivity|].
  rewrite !chart_calls_app, chart_calls_stock_parameters, (@chart_calls_content w ui df Hdf).
  reflexivity.
Qed.

Lemma missing_price_column_faults_before_any_trace_witness :
  exists key,
    In key price_columns /\
    ~ In key (columns_to_list (first_level no_open_prices)) /\
    plotting close_only sample_companies (first_level no_open_prices)
    = ([go_Figure], Raise (KeyError key)) /\
    outcome (page no_open_world close_only sample_tickers sample_companies)
    = Raise (KeyError key) /\
    chart_calls (log (page no_open_world close_only sample_tickers sample_companies))
    = [].
Proof.
  apply (@missing_price_column_faults_before_any_trace no_open_world close_only
           sample_tickers sample_companies (first_level no_open_prices)).
  - reflexivity.
  - reflexivity.
  - intros Hincl. specialize (Hincl "Open"%string (or_introl eq_refl)).
    cbn in Hincl. repeat (destruct Hincl as [Hincl|Hincl]; [discriminate Hincl|]).
    exact Hincl.
Defined.

End PageRuns.

(** ** Completed runs, and what every run does exactly once *)

Section CompletedRuns.

Import App.

(** When the table is not empty, has its price columns (and the volume
    column and a returning RSI where those overlays are enabled) and the
    ticker is listed in the directory, the run completes: after the traces
    the layout is set with the title "<company>'s Stock Price" and the chart
    is rendered as the last call. *)
Theorem chart_rendered_under_company_title
    (w : World) (ui : Inputs) (tickers : list string) (d : dict) (df : DataFrame)
    (open close high low volume rsi : Series) (company : string) :
  outcome (content w ui) = Ok df ->
  Frame.empty df = false ->
  getitem df "Open" = Ok open -> getitem df "Close" = Ok close ->
  getitem df "High" = Ok high -> getitem df "Low" = Ok low ->
  (volume_flag ui = true -> getitem df "Volume" = Ok volume) ->
  (rsi_flag ui = true -> Indicators.rsi close (rsi_periods ui) = Ok rsi) ->
  dict_get d (ticker ui) = Some company ->
  page w ui tickers d
  = (log (stock_parameters w ui tickers d) ++ log technical_analysis_parameters
     ++ log (content w ui)
     ++ go_Figure :: expected_figure_calls ui df open close high low volume rsi
     ++ [ fig_update_layout (chart_layout (company ++ "'s Stock Price"));
          st_plotly_chart true ],
     Ok tt).
Proof.
  intros Hdf He Ho Hc Hh Hl Hv Hr Hd.
  rewrite (run_pair (page w ui tickers d)), page_log, page_outcome, Hdf.
  rewrite (@plotting_steps ui d df open close high low volume rsi He Ho Hc Hh Hl Hv Hr).
  rewrite (@show_chart_listed ui d company Hd). reflexivity.
Qed.

Lemma chart_rendered_under_company_title_witness :
  exists rsi : Series,
    Indicators.rsi prices3 2 = Ok rsi /\
    page sample_world sample_inputs sample_tickers sample_companies
    = (log (stock_parameters sample_world sample_inputs sample_tickers sample_companies)
       ++ log technical_analysis_parameters
       ++ log (content sample_world sample_inputs)
       ++ go_Figure
          :: expected_figure_calls sample_inputs (first_level sample_prices)
               [Some 1%R; Some 2%R; Some 2%R] prices3 [Some 2%R; Some 3%R; Some 4%R]
               [Some 1%R; Some 1%R; Some 2%R] [Some 100%R; Some 200%R; Some 300%R] rsi
          ++ [ fig_update_layout (chart_layout "3M's Stock Price");
               st_plotly_chart true ],
       Ok tt).
Proof.
  destruct rsi_prices3 as (v & Hv & _).
  exists [NaN; NaN; Some v]. split; [exact Hv|].
  apply (@chart_rendered_under_company_title sample_world sample_inputs sample_tickers
           sample_companies (first_level sample_prices)
           [Some 1%R; Some 2%R; Some 2%R] prices3 [Some 2%R; Some 3%R; Some 4%R]
           [Some 1%R; Some 1%R; Some 2%R] [Some 100%R; Some 200%R; Some 300%R]
           [NaN; NaN; Some v] "3M"%string);
    try reflexivity.
  intros _. exact Hv.
Defined.

(** For an RSI period [talib.RSI] accepts (2 or more; the widget stops at
    20), on a table that is not empty and has its four price columns (and
    the volume column where the volume overlay is enabled), the calls that
    add to the figure are exactly, in this order: the candlestick; the RSI
    line and its two threshold lines if RSI is enabled; the volume bars if
    volume is enabled; the SMA line if SMA is enabled; the upper and then
    the lower band if Bollinger is enabled; for every combination of the
    four flags. *)
Theorem traces_in_order_for_accepted_rsi_period
    (w : World) (ui : Inputs) (tickers : list string) (d : dict) (df : DataFrame)
    (open close high low volume : Series) :
  outcome (content w ui) = Ok df ->
  Frame.empty df = false ->
  getitem df "Open" = Ok open -> getitem df "Close" = Ok close ->
  getitem df "High" = Ok high -> getitem df "Low" = Ok low ->
  (volume_flag ui = true -> getitem df "Volume" = Ok volume) ->
  (rsi_flag ui = true -> 2 <= rsi_periods ui <= 20) ->
  exists rsi : Series,
    (rsi_flag ui = true -> Indicators.rsi close (rsi_periods ui) = Ok rsi) /\
    figure_calls (log (page w ui tickers d))
    = expected_figure_calls ui df open close high low volume rsi.
Proof.
  intros Hdf He Ho Hc Hh Hl Hv Hw.
  assert (Hrsi : exists rsi : Series,
             rsi_flag ui = true -> Indicators.rsi close (rsi_periods ui) = Ok rsi).
  { destruct (rsi_flag ui); [|exists []; discriminate].
    destruct (Hw eq_refl) as [Hlo Hhi].
    destruct (@RSI_ok close (rsi_periods ui) Hlo ltac:(lia)) as (rsi & Hr & _).
    exists rsi. intros _. exact Hr. }
  destruct Hrsi as [rsi Hr]. exists rsi. split; [exact Hr|].
  rewrite page_log, Hdf.
  rewrite (@plotting_steps ui d df open close high low volume rsi He Ho Hc Hh Hl Hv Hr).
  cbn [log fst].
  rewrite !figure_calls_app, figure_calls_stock_parameters,
    (@figure_calls_content w ui df Hdf).
  change (figure_calls (go_Figure :: ?l)) with (figure_calls l).
  now rewrite figure_calls_app, figure_calls_expected, figure_calls_show_chart, app_nil_r.
Qed.

Lemma traces_in_order_for_accepted_rsi_period_witness :
  exists rsi : Series,
    (rsi_flag sample_inputs = true ->
     Indicators.rsi prices3 (rsi_periods sample_inputs) = Ok rsi) /\
    figure_calls (log (page sample_world sample_inputs sample_tickers sample_companies))
    = expected_figure_calls sample_inputs (first_level sample_prices)
        [Some 1%R; Some 2%R; Some 2%R] prices3 [Some 2%R; Some 3%R; Some 4%R]
        [Some 1%R; Some 1%R; Some 2%R] [Some 100%R; Some 200%R; Some 300%R] rsi.
Proof.
  apply (@traces_in_order_for_accepted_rsi_period sample_world sample_inputs
           sample_tickers sample_companies (first_level sample_prices)
           [Some 1%R; Some 2%R; Some 2%R] prices3 [Some 2%R; Some 3%R; Some 4%R]
           [Some 1%R; Some 1%R; Some 2%R] [Some 100%R; Some 200%R; Some 300%R]);
    try reflexivity.
  intros _. cbn. lia.
Defined.

Lemma content_all (f : call -> bool) (w : World) (ui : Inputs) :
  (forall body, f (st_title body) = false) ->
  (forall body, f (st_write body) = false) ->
  (forall s a b, f (load_data_call s a b) = false) ->
  (forall l, f (st_expander l) = false) ->
  (forall e l o dflt, f (expander_multiselect e l o dflt) = false) ->
  (forall e data, f (expander_dataframe e data) = false) ->
  (forall e l data n m, f (expander_download_button e l data n m) = false) ->
  Forall (fun c => f c = false) (log (content w ui)).
Proof.
  intros H1 H2 H3 H4 H5 H6 H7. unfold content, load_data. cbv zeta.
  repeat first
    [ apply log_all_lift | apply log_all_ret
    | apply log_all_bind; [ | intros ? ]
    | apply log_all_emit;
      first [apply H1 | apply H2 | apply H3 | apply H4 | apply H5 | apply H6 | apply H7] ].
Qed.

Lemma show_chart_all (f : call -> bool) (ui : Inputs) (d : dict) :
  (forall l, f (fig_update_layout l) = false) ->
  (forall z, f (st_plotly_chart z) = false) ->
  Forall (fun c => f c = false) (log (show_chart ui d)).
Proof.
  intros H1 H2. unfold show_chart. cbv zeta.
  repeat first
    [ apply log_all_lift | apply log_all_bind; [ | intros ? ]
    | apply log_all_emit; first [apply H1 | apply H2] ].
Qed.

(** A kind of call the composer never makes on a table that is not empty. *)
Lemma plotting_nonempty_all (f : call -> bool) (ui : Inputs) (d : dict) (df : DataFrame) :
  f go_Figure = false ->
  (forall t, f (fig_add_trace t) = false) ->
  (forall y l, f (fig_add_hline y l) = false) ->
  (forall l, f (fig_update_layout l) = false) ->
  (forall z, f (st_plotly_chart z) = false) ->
  Frame.empty df = false ->
  Forall (fun c => f c = false) (log (plotting ui d df)).
Proof.
  intros H0 H1 H2 H3 H4 He. unfold plotting. rewrite He.
  repeat first
    [ apply log_all_lift
    | apply log_all_emit; first [exact H0 | apply H1]
    | apply show_chart_all; assumption
    | match goal with
      | |- Forall _ (log (when ?b _)) => destruct b; cbn [when]
      end
    | apply log_all_ret
    | apply rsi_traces_all; assumption
    | apply volume_trace_all; assumption
    | apply sma_trace_all; assumption
    | apply bollinger_traces_all; assumption
    | apply log_all_bind; [ | intros ? ] ].
Qed.

Lemma stock_parameters_log (w : World) (ui : Inputs) (tickers : list string) (d : dict) :
  log (stock_parameters w ui tickers d)
  = [ sidebar_selectbox "Ticker" tickers d;
      sidebar_date_input "Start Date" (mk_date 2018 1 1);
      sidebar_date_input "End Date" (today w) ]
    ++ (if date_gt (start_date ui) (end_date ui)
        then [sidebar_error "The End Date must fall after the Start Date"]
        else []).
Proof. unfold stock_parameters. destruct (date_gt _ _); reflexivity. Qed.

Lemma date_gt_irrefl (a : date) : date_gt a a = false.
Proof.
  unfold date_gt. rewrite !Nat.ltb_irrefl, !Nat.eqb_refl. reflexivity.
Qed.

(** The sidebar error is shown exactly when the start date is after the end
    date, once, whatever the rest of the run does; equal dates give no
    error. *)
Theorem sidebar_error_iff_start_after_end
    (w : World) (ui : Inputs) (tickers : list string) (d : dict) :
  filter is_sidebar_error (log (page w ui tickers d))
  = (if date_gt (start_date ui) (end_date ui)
     then [sidebar_error "The End Date must fall after the Start Date"]
     else [])
  /\ (start_date ui = end_date ui ->
      filter is_sidebar_error (log (page w ui tickers d)) = []).
Proof.
  assert (H : filter is_sidebar_error (log (page w ui tickers d))
              = if date_gt (start_date ui) (end_date ui)
                then [sidebar_error "The End Date must fall after the Start Date"]
                else []).
  { rewrite page_log, !filter_app, stock_parameters_log, filter_app.
    rewrite (@filter_none is_sidebar_error (log (content w ui)))
      by (apply content_all; reflexivity).
    assert (Hp : filter is_sidebar_error
                   match outcome (content w ui) with
                   | Ok df => log (plotting ui d df)
                   | Raise _ => []
                   end = []).
    { destruct (outcome (content w ui)) as [df|e]; [|reflexivity].
      destruct (Frame.empty df) eqn:He.
      - now rewrite (@plotting_empty ui d df He).
      - apply filter_none. apply plotting_nonempty_all; try reflexivity. exact He. }
    rewrite Hp. destruct (date_gt _ _); reflexivity. }
  split; [exact H|]. intros Heq. rewrite H, Heq, date_gt_irrefl. reflexivity.
Qed.

(** The page error is shown exactly when the loader returned a table and the
    table is empty, and then once. *)
Theorem page_error_iff_table_empty
    (w : World) (ui : Inputs) (tickers : list string) (d : dict) :
  filter is_page_error (log (page w ui tickers d))
  = match outcome (content w ui) with
    | Ok df =>
        if Frame.empty df
        then [st_error "No Data Available for the Selected Stock and Date range"]
        else []
    | Raise _ => []
    end.
Proof.
  rewrite page_log, !filter_app, stock_parameters_log, filter_app.
  rewrite (@filter_none is_page_error (log (content w ui)))
    by (apply content_all; reflexivity).
  assert (Hs : filter is_page_error
                 (if date_gt (start_date ui) (end_date ui)
                  then [sidebar_error "The End Date must fall after the Start Date"]
                  else []) = []) by (destruct (date_gt _ _); reflexivity).
  rewrite Hs. cbn [filter is_page_error app].
  change (filter is_page_error (log technical_analysis_parameters)) with (@nil call).
  cbn [app].
  destruct (outcome (content w ui)) as [df|e]; [|reflexivity].
  destruct (Frame.empty df) eqn:He.
  - now rewrite (@plotting_empty ui d df He).
  - apply filter_none. apply plotting_nonempty_all; try reflexivity. exact He.
Qed.

Lemma load_data_log (w : World) (symbol : string) (start finish : date) :
  log (load_data w symbol start finish) = [load_data_call symbol start finish].
Proof.
  destruct (yf_download w symbol start finish) as [raw|e] eqn:H.
  - now rewrite (@load_data_ok w symbol start finish raw H).
  - now rewrite (@load_data_raise w symbol start finish e H).
Qed.

(** Every run of the page queries the data provider exactly once, for the
    ticker and the two dates of the widgets, and sends no HTTP request. *)
Theorem one_provider_query_per_run
    (w : World) (ui : Inputs) (tickers : list string) (d : dict) :
  filter is_load_data_call (log (page w ui tickers d))
  = [load_data_call (ticker ui) (start_date ui) (end_date ui)]
  /\ filter is_request (log (page w ui tickers d)) = [].
Proof.
  split.
  - rewrite page_log, !filter_app, stock_parameters_log, filter_app.
    assert (Hs : filter is_load_data_call
                   (if date_gt (start_date ui) (end_date ui)
                    then [sidebar_error "The End Date must fall after the Start Date"]
                    else []) = []) by (destruct (date_gt _ _); reflexivity).
    rewrite Hs.
    change (filter is_load_data_call (log technical_analysis_parameters))
      with (@nil call).
    assert (Hp : filter is_load_data_call
                   match outcome (content w ui) with
                   | Ok df => log (plotting ui d df)
                   | Raise _ => []
                   end = []).
    { destruct (outcome (content w ui)) as [df|e]; [|reflexivity].
      destruct (Frame.empty df) eqn:He.
      - now rewrite (@plotting_empty ui d df He).
      - apply filter_none. apply plotting_nonempty_all; try reflexivity. exact He. }
    rewrite Hp. cbn [filter is_load_data_call app]. rewrite app_nil_r.
    unfold content. rewrite !bind_emit. cbn [log fst filter is_load_data_call].
    rewrite log_bind, filter_app, load_data_log. cbn [filter is_load_data_call app].
    f_equal. apply filter_none.
    destruct (outcome (load_data w (ticker ui) (start_date ui) (end_date ui)));
      [|constructor].
    cbv zeta.
    repeat first
      [ apply log_all_lift | apply log_all_ret
      | apply log_all_emit; reflexivity
      | apply log_all_bind; [ | intros ? ] ].
  - rewrite page_log, !filter_app, stock_parameters_log, filter_app.
    rewrite (@filter_none is_request (log (content w ui)))
      by (apply content_all; reflexivity).
    assert (Hs : filter is_request
                   (if date_gt (start_date ui) (end_date ui)
                    then [sidebar_error "The End Date must fall after the Start Date"]
                    else []) = []) by (destruct (date_gt _ _); reflexivity).
    rewrite Hs.
    change (filter is_request (log technical_analysis_parameters)) with (@nil call).
    cbn [filter is_request app].
    destruct (outcome (content w ui)) as [df|e]; [|reflexivity].
    destruct (Frame.empty df) eqn:He.
    + now rewrite (@plotting_empty ui d df He).
    + apply filter_none. apply plotting_nonempty_all; try reflexivity. exact He.
Qed.

End CompletedRuns.

(** ** A rendered chart *)

Section RenderedChart.

Import App.

Lemma renders_last_bind (A : Type) (m : run A) (k : A -> run unit) :
  Forall (fun c => is_render c = false) (log m) ->
  (forall a, renders_last (k a)) ->
  renders_last (bind m k).
Proof.
  intros Hm Hk z Hin. rewrite log_bind in Hin. apply in_app_or in Hin.
  destruct Hin as [Hin|Hin].
  { exfalso. revert Hin. now apply (@not_in_of_all is_render). }
  rewrite log_bind, outcome_bind.
  destruct (outcome m) as [a|e]; [|contradiction].
  destruct (Hk a z Hin) as (Hout & before & Hlog).
  split; [assumption|]. exists (log m ++ before). now rewrite Hlog, app_assoc.
Qed.

Lemma renders_last_silent (r : run unit) :
  Forall (fun c => is_render c = false) (log r) -> renders_last r.
Proof.
  intros Hr z Hin. exfalso. revert Hin. now apply (@not_in_of_all is_render).
Qed.

Lemma show_chart_renders_last (ui : Inputs) (d : dict) : renders_last (show_chart ui d).
Proof.
  unfold show_chart. apply renders_last_bind; [apply log_all_lift|].
  intros company z _. split; [reflexivity|].
  eexists [_]. reflexivity.
Qed.

Lemma plotting_renders_last (ui : Inputs) (d : dict) (df : DataFrame) :
  renders_last (plotting ui d df).
Proof.
  unfold plotting.
  apply renders_last_bind; [apply log_all_emit; reflexivity|]. intros _.
  destruct (Frame.empty df).
  { apply renders_last_silent. apply log_all_emit. reflexivity. }
  do 4 (apply renders_last_bind; [apply log_all_lift|]; intros ?).
  apply renders_last_bind; [apply log_all_emit; reflexivity|]. intros _.
  apply renders_last_bind.
  { destruct (rsi_flag ui); cbn [when];
      [apply rsi_traces_all; reflexivity | apply log_all_ret]. }
  intros _. apply renders_last_bind.
  { destruct (volume_flag ui); cbn [when];
      [apply volume_trace_all; reflexivity | apply log_all_ret]. }
  intros _. apply renders_last_bind.
  { destruct (sma_flag ui); cbn [when];
      [apply sma_trace_all; reflexivity | apply log_all_ret]. }
  intros _. apply renders_last_bind.
  { destruct (bb_flag ui); cbn [when];
      [apply bollinger_traces_all; reflexivity | apply log_all_ret]. }
  intros _. apply show_chart_renders_last.
Qed.

Lemma before_plotting_silent (w : World) (ui : Inputs) (tickers : list string) (d : dict) :
  Forall (fun c => is_render c = false)
    (log (stock_parameters w ui tickers d) ++ log technical_analysis_parameters
     ++ log (content w ui)).
Proof.
  apply Forall_app. split.
  - rewrite stock_parameters_log. destruct (date_gt _ _); repeat constructor.
  - apply Forall_app. split; [repeat constructor|]. apply content_all; reflexivity.
Qed.

(** A chart is never rendered by a run that faults or on an empty table:
    whenever [st.plotly_chart] is called, it is the last call of the run,
    the run ends normally, and the loader had returned a table that is not
    empty. *)
Theorem rendered_chart_means_completed_run
    (w : World) (ui : Inputs) (tickers : list string) (d : dict) (z : bool) :
  In (st_plotly_chart z) (log (page w ui tickers d)) ->
  outcome (page w ui tickers d) = Ok tt /\
  (exists before, log (page w ui tickers d) = before ++ [st_plotly_chart true]) /\
  (exists df, outcome (content w ui) = Ok df /\ Frame.empty df = false).
Proof.
  intros Hin. pose proof (before_plotting_silent w ui tickers d) as Hsilent.
  rewrite page_log, !app_assoc in Hin. rewrite <- !app_assoc in Hin.
  rewrite page_log, page_outcome.
  assert (Hin' : In (st_plotly_chart z)
                   match outcome (content w ui) with
                   | Ok df => log (plotting ui d df)
                   | Raise _ => []
                   end).
  { rewrite 2!app_assoc in Hin. apply in_app_or in Hin.
    destruct Hin as [Hin|Hin]; [|exact Hin].
    exfalso. revert Hin. rewrite <- app_assoc.
    now apply (@not_in_of_all is_render). }
  destruct (outcome (content w ui)) as [df|e]; [|contradiction].
  destruct (@plotting_renders_last ui d df z Hin') as (Hout & before & Hlog).
  split; [assumption|]. split.
  - exists (log (stock_parameters w ui tickers d) ++ log technical_analysis_parameters
            ++ log (content w ui) ++ before).
    rewrite Hlog, <- !app_assoc. reflexivity.
  - exists df. split; [reflexivity|].
    destruct (Frame.empty df) eqn:He; [|reflexivity].
    rewrite (@plotting_empty ui d df He) in Hin'. cbn in Hin'.
    destruct Hin' as [H|[H|[]]]; discriminate H.
Qed.

Lemma rendered_chart_means_completed_run_witness :
  outcome (page sample_world plain_inputs sample_tickers sample_companies) = Ok tt /\
  (exists before,
      log (page sample_world plain_inputs sample_tickers sample_companies)
      = before ++ [st_plotly_chart true]) /\
  (exists df,
      outcome (content sample_world plain_inputs) = Ok df /\ Frame.empty df = false).
Proof.
  apply (@rendered_chart_means_completed_run sample_world plain_inputs sample_tickers
           sample_companies true).
  rewrite page_log.
  apply in_or_app; right. apply in_or_app; right. apply in_or_app; right.
  change (outcome (content sample_world plain_inputs))
    with (@Ok DataFrame (first_level sample_prices)).
  cbv beta iota.
  rewrite (@plotting_steps plain_inputs sample_companies (first_level sample_prices)
             [Some 1%R; Some 2%R; Some 2%R] prices3 [Some 2%R; Some 3%R; Some 4%R]
             [Some 1%R; Some 1%R; Some 2%R] [] []);
    try reflexivity; try discriminate.
  rewrite (@show_chart_listed plain_inputs sample_companies "3M"%string eq_refl).
  cbn [log fst]. right. apply in_or_app. right. right. now left.
Defined.

End RenderedChart.

(** ** Values of the indicators *)

Section IndicatorValues.

Import Indicators.

Local Open Scope R_scope.

Lemma observations_forall (P : R -> Prop) (l : list double) :
  Forall (fun x => match x with Some r => P r | None => True end) l ->
  Forall P (observations l).
Proof.
  induction 1 as [ | [x | ] l Hx _ IH ]; cbn [observations]; auto.
Qed.

Lemma window_observations_forall (P : R -> Prop) (w : nat) (close : Series) (i : nat) :
  Forall (fun x => match x with Some r => P r | None => True end) close ->
  Forall P (observations (window_at w close i)).
Proof.
  intros H. apply observations_forall. unfold window_at.
  now apply Forall_firstn_keep, Forall_skipn_keep.
Qed.

Lemma calc_mean_some (minp : nat) (obs : list R) (v : R) :
  calc_mean minp obs = Some v ->
  (0 < length obs)%nat /\ v = sum obs / INR (length obs).
Proof.
  unfold calc_mean.
  destruct (Nat.leb_spec minp (length obs)); cbn [andb]; [|discriminate].
  destruct (Nat.ltb_spec 0 (length obs)); [|discriminate].
  intros [= <-]. now split.
Qed.

Lemma calc_var_some (minp ddof : nat) (obs : list R) (v : R) :
  calc_var minp ddof obs = Some v ->
  (ddof < length obs)%nat /\ v = ssqdm obs / (INR (length obs) - INR ddof).
Proof.
  unfold calc_var.
  destruct (Nat.leb_spec minp (length obs)); cbn [andb]; [|discriminate].
  destruct (Nat.ltb_spec ddof (length obs)); [|discriminate].
  intros [= <-]. now split.
Qed.

Lemma sum_const (c : R) (obs : list R) :
  Forall (fun r => r = c) obs -> sum obs = INR (length obs) * c.
Proof.
  induction 1 as [ | x obs Hx _ IH ].
  - cbn. lra.
  - cbn [length sum fold_right]. rewrite S_INR. unfold sum in IH. subst x. lra.
Qed.

Lemma mean_const (c : R) (obs : list R) :
  Forall (fun r => r = c) obs -> (0 < length obs)%nat ->
  sum obs / INR (length obs) = c.
Proof.
  intros H Hn. rewrite (sum_const H). field.
  apply not_0_INR. lia.
Qed.

Lemma ssqdm_const (c : R) (obs : list R) :
  Forall (fun r => r = c) obs -> (0 < length obs)%nat -> ssqdm obs = 0.
Proof.
  intros H Hn. unfold ssqdm. rewrite (mean_const H Hn).
  clear Hn. induction H as [ | x obs Hx _ IH ]; [reflexivity|].
  cbn [map sum fold_right]. unfold sum in IH. rewrite IH. subst x. lra.
Qed.

(** On flat prices the bands have no width: when every close is the same
    number [c], every number of the upper and of the lower band is [c]. *)
Theorem flat_prices_collapse_the_bands
    (c : R) (close : Series) (w : nat) (k : double) (i : nat) (u l : R) :
  Forall (is_value c) close ->
  nth_error (upper_band close w k) i = Some (Some u) ->
  nth_error (lower_band close w k) i = Some (Some l) ->
  u = c /\ l = c.
Proof.
  intros Hclose Hu Hl.
  assert (Hi : (i < length close)%nat).
  { rewrite <- (upper_band_length close w k). apply nth_error_Some. congruence. }
  pose proof (rolling_mean_nth w close Hi) as Hm.
  pose proof (rolling_std_nth w close Hi) as Hsd.
  rewrite (@upper_band_nth close w k i _ _ Hm Hsd) in Hu.
  rewrite (@lower_band_nth close w k i _ _ Hm Hsd) in Hl.
  pose proof (@window_observations_forall (fun r => r = c) w close i Hclose) as Hobs.
  destruct (calc_mean w (observations (window_at w close i))) as [m|] eqn:Em;
    [|discriminate].
  destruct (calc_var w 1 (observations (window_at w close i))) as [var|] eqn:Ev;
    [|destruct k; discriminate].
  destruct k as [k|]; [|discriminate].
  apply calc_mean_some in Em. destruct Em as [Hn Em].
  apply calc_var_some in Ev. destruct Ev as [_ Ev].
  rewrite (mean_const Hobs Hn) in Em. rewrite (ssqdm_const Hobs Hn) in Ev.
  assert (Hvar : var = 0) by (rewrite Ev; unfold Rdiv; ring).
  cbn in Hu, Hl. injection Hu as <-. injection Hl as <-.
  rewrite Hvar, sqrt_0, Em. lra.
Qed.

Lemma flat_prices_collapse_the_bands_witness :
  exists u l : R,
    nth_error (upper_band [Some 5; Some 5; Some 5] 2 (of_R 2)) 1 = Some (Some u) /\
    nth_error (lower_band [Some 5; Some 5; Some 5] 2 (of_R 2)) 1 = Some (Some l) /\
    u = 5 /\ l = 5.
Proof.
  eexists. eexists. split; [reflexivity|]. split; [reflexivity|].
  apply (@flat_prices_collapse_the_bands 5 [Some 5; Some 5; Some 5] 2 (of_R 2) 1).
  - repeat constructor.
  - reflexivity.
  - reflexivity.
Defined.

End IndicatorValues.

(** ** The RSI of prices that never rise *)

Section FallingPrices.

Import Talib.

Local Open Scope R_scope.

Lemma is_value_0_mul (a b : double) : is_value 0 a -> is_value 0 (mul a b).
Proof. destruct a as [a|], b as [b|]; cbn; try trivial. intros ->. ring. Qed.

Lemma is_value_0_div (a b : double) : is_value 0 a -> is_value 0 (div a b).
Proof.
  destruct a as [a|], b as [b|]; cbn; try trivial. intros ->. unfold Rdiv. ring.
Qed.

Lemma rsi_sample_zero_gain (g l : double) :
  is_value 0 g -> is_value 0 (rsi_sample g l).
Proof.
  intros Hg. unfold rsi_sample.
  destruct (negb (TA_IS_ZERO (add g l))); [|reflexivity].
  destruct g as [g|], l as [l|]; cbn in *; try trivial.
  subst g. unfold Rdiv. ring.
Qed.

(** One price change that is not a rise leaves a zero gain at zero. *)
Lemma gain_step_zero (g : double) (x p : R) :
  is_value 0 g -> x <= p ->
  is_value 0 (if ltb (sub (Some x) (Some p)) (of_R 0) then g
              else add g (sub (Some x) (Some p))).
Proof.
  intros Hg Hxp. cbn [sub lift2]. unfold ltb, of_R.
  destruct (Rlt_dec (x - p) 0) as [Hlt|Hge]; [assumption|].
  destruct g as [g|]; cbn in *; [|trivial]. lra.
Qed.

Lemma accumulate_zero_gain (i : nat) (l : list R) (st : rsi_state) (p : R) :
  prevValue st = Some p -> is_value 0 (prevGain st) -> falls_from p l ->
  exists p' l',
    fst (accumulate i (map Some l) st) = map Some l' /\
    prevValue (snd (accumulate i (map Some l) st)) = Some p' /\
    is_value 0 (prevGain (snd (accumulate i (map Some l) st))) /\
    falls_from p' l'.
Proof.
  revert l st p. induction i as [ | i IH ]; intros l st p Hp Hg Hl.
  { exists p, l. destruct l; cbn; auto. }
  destruct l as [ | x l ]; [exists p, []; cbn; auto|].
  destruct Hl as [Hxp Hl]. cbn [map accumulate]. rewrite Hp.
  pose proof (gain_step_zero (prevGain st) Hg Hxp) as Hstep.
  destruct (ltb (sub (Some x) (Some p)) (of_R 0));
    apply (IH l _ x); cbn [prevValue prevGain]; auto.
Qed.

Lemma smooth_zero_gain (period : double) (l : list R) (st : rsi_state) (p : R) :
  prevValue st = Some p -> is_value 0 (prevGain st) -> falls_from p l ->
  Forall (is_value 0) (smooth period (map Some l) st).
Proof.
  revert st p. induction l as [ | x l IH ]; intros st p Hp Hg Hl; [constructor|].
  destruct Hl as [Hxp Hl]. cbn [map smooth prevGain prevLoss]. rewrite Hp.
  assert (Hg' : is_value 0
                  (div (if ltb (sub (Some x) (Some p)) (of_R 0)
                        then mul (prevGain st) (sub period (of_R 1))
                        else add (mul (prevGain st) (sub period (of_R 1)))
                               (sub (Some x) (Some p)))
                       period)).
  { apply is_value_0_div. apply gain_step_zero; [|assumption].
    now apply is_value_0_mul. }
  constructor.
  - now apply rsi_sample_zero_gain.
  - apply (IH _ x); cbn [prevValue prevGain]; auto.
Qed.

Lemma TA_RSI_never_rises (prices : list R) (w : nat) (out : list double) :
  never_rises prices -> TA_RSI (map Some prices) w = Ok out ->
  Forall (is_value 0) out.
Proof.
  intros Hfall. unfold TA_RSI.
  destruct ((Z.of_nat w <? 2)%Z || (100000 <? Z.of_nat w)%Z); [discriminate|].
  match goal with |- context [Nat.leb ?a ?b] => destruct (Nat.leb a b) end;
    [intros [= <-]; constructor|].
  destruct prices as [ | first rest ]; cbn [map]; [intros [= <-]; constructor|].
  cbn in Hfall.
  destruct (@accumulate_zero_gain w rest (mk_rsi_state (Some first) (of_R 0) (of_R 0))
              first eq_refl eq_refl Hfall) as (p' & l' & Hrest & Hp' & Hg' & Hl').
  destruct (accumulate w (map Some rest) (mk_rsi_state (Some first) (of_R 0) (of_R 0)))
    as [rest' st].
  cbn [fst snd] in Hrest, Hp', Hg'. subst rest'. intros [= <-].
  cbn [prevGain prevLoss].
  constructor.
  - apply rsi_sample_zero_gain. now apply is_value_0_div.
  - apply (@smooth_zero_gain _ l' _ p'); cbn [prevValue prevGain]; auto.
    now apply is_value_0_div.
Qed.

(** On prices that never rise (flat prices included) every number of the
    RSI is 0. *)
Theorem rsi_is_0_when_prices_never_rise
    (prices : list R) (w : nat) (out : Series) (i : nat) (v : R) :
  never_rises prices ->
  Indicators.rsi (map Some prices) w = Ok out ->
  nth_error out i = Some (Some v) ->
  v = 0.
Proof.
  intros Hfall Hout Hv. unfold Indicators.rsi, RSI in Hout.
  assert (Hlead : leading_nans (map Some prices) = 0%nat) by now destruct prices.
  rewrite Hlead in Hout. cbn [skipn] in Hout.
  destruct (TA_RSI (map Some prices) w) as [samples|e] eqn:Hs; [|discriminate].
  injection Hout as <-.
  assert (Hall : Forall (is_value 0)
                   (repeat NaN (Nat.min (0 + w) (length (map Some prices))) ++ samples)).
  { apply Forall_app. split; [apply Forall_repeat_NaN; exact I|].
    now apply (@TA_RSI_never_rises prices w). }
  rewrite Forall_forall in Hall. apply (Hall (Some v)).
  eapply nth_error_In. exact Hv.
Qed.

Lemma rsi_is_0_when_prices_never_rise_witness :
  exists (out : Series) (v : R),
    Indicators.rsi (map Some [3; 2; 2]) 2 = Ok out /\
    nth_error out 2 = Some (Some v) /\ v = 0.
Proof.
  destruct (@RSI_numeric (map Some [3; 2; 2]) 2) as (out & Hout & _ & Hrows);
    [lia | lia | repeat constructor |].
  destruct (Hrows 2%nat) as [_ Hnum]; [cbn; lia|].
  destruct Hnum as [v Hv]; [lia|].
  exists out, v. split; [exact Hout|]. split; [exact Hv|].
  apply (@rsi_is_0_when_prices_never_rise [3; 2; 2] 2 out 2 v).
  - cbn. lra.
  - exact Hout.
  - exact Hv.
Defined.

End FallingPrices.

(** ** The directory's names and the exported bytes *)

Section DirectoryAndExport.

Import App.

Lemma dict_get_some_in (d : dict) (k v : string) :
  dict_get d k = Some v -> In (k, v) d.
Proof.
  induction d as [ | [k' v'] d IH ]; cbn [dict_get]; [discriminate|].
  destruct (dict_get d k) as [v''|].
  - intros [= <-]. right. now apply IH.
  - destruct (String.eqb_spec k' k) as [->|_]; [|discriminate].
    intros [= <-]. now left.
Qed.

Lemma dict_get_key_in (d : dict) (k : string) :
  In k (map fst d) -> exists v, dict_get d k = Some v.
Proof.
  induction d as [ | [k' v'] d IH ]; cbn [map fst In dict_get]; [contradiction|].
  intros [ -> | Hin ].
  - destruct (dict_get d k) as [v|]; [now exists v|].
    rewrite String.eqb_refl. now exists v'.
  - destruct (IH Hin) as [v ->]. now exists v.
Qed.

Lemma map_fst_combine (A B : Type) (a : list A) (b : list B) :
  length a <= length b -> map fst (combine a b) = a.
Proof.
  revert b. induction a as [ | x a IH ]; intros [ | y b ] H; cbn in *;
    try reflexivity; try lia.
  f_equal. apply IH. lia.
Qed.

(** The dict of line 19, built from a symbol column and a security column
    that is at least as long, has a name for every symbol: the title lookup
    of line 151 cannot fail for a ticker the selectbox offers, and the name
    it finds stands beside that symbol in some row. *)
Theorem offered_ticker_has_a_company_name
    (symbols securities : list string) (ticker : string) :
  length symbols <= length securities ->
  In ticker symbols ->
  exists company,
    dict_getitem (combine symbols securities) ticker = Ok company /\
    In (ticker, company) (combine symbols securities).
Proof.
  intros Hlen Hin.
  destruct (@dict_get_key_in (combine symbols securities) ticker) as [company Hget].
  { now rewrite map_fst_combine. }
  exists company. unfold dict_getitem. rewrite Hget. split; [reflexivity|].
  now apply dict_get_some_in.
Qed.

Lemma offered_ticker_has_a_company_name_witness :
  exists company,
    dict_getitem (combine ["MMM"; "AOS"; "MMM"] ["3M"; "A. O. Smith"; "3M Company"])%string
      "MMM"
    = Ok company /\
    In ("MMM"%string, company)
       (combine ["MMM"; "AOS"; "MMM"] ["3M"; "A. O. Smith"; "3M Company"])%string.
Proof.
  apply (@offered_ticker_has_a_company_name
           ["MMM"; "AOS"; "MMM"]%string ["3M"; "A. O. Smith"; "3M Company"]%string
           "MMM"%string).
  - cbn. lia.
  - now left.
Defined.

(** The bytes of the export decode to exactly the CSV text of the table, so
    two tables with different CSV texts never share their bytes. *)
Theorem csv_bytes_decode_to_the_csv_text (w : World) (df df' : DataFrame) :
  decode_utf8 (convert_df_to_csv w df)
  = Some (to_csv (column_dtype w) (cell_repr w) (linesep w) df)
  /\ (convert_df_to_csv w df = convert_df_to_csv w df' ->
      to_csv (column_dtype w) (cell_repr w) (linesep w) df
      = to_csv (column_dtype w) (cell_repr w) (linesep w) df').
Proof.
  unfold convert_df_to_csv. split; [apply decode_encode_utf8|].
  intros H. apply (f_equal decode_utf8) in H.
  rewrite !decode_encode_utf8 in H. now injection H.
Qed.

(** When the loader returns a table without rows, the download button still
    carries a CSV: its bytes decode to a text that holds one record, the
    header (the index label, then the chosen column labels). *)
Theorem table_without_rows_exports_its_header
    (w : World) (ui : Inputs) (raw : RawFrame) :
  is_linesep (linesep w) ->
  yf_download w (ticker ui) (start_date ui) (end_date ui) = Ok raw ->
  raw_index raw = [] ->
  incl (columns_to_show ui) (columns_to_list (first_level raw)) ->
  exists (csv_file : list Byte.byte) (csv_text : string),
    In (expander_download_button "Preview Data" "Download selected as CSV" csv_file
          (ticker ui ++ " Daily Stock Prices") "text/csv")
       (log (content w ui)) /\
    decode_utf8 csv_file = Some csv_text /\
    CsvReader.read csv_text = [raw_index_label raw :: columns_to_show ui].
Proof.
  intros Hsep Hraw Hrows Hincl.
  pose proof (@getitems_incl (first_level raw) (columns_to_show ui) Hincl) as Hsel.
  eexists. eexists. split; [|split].
  - rewrite (@content_run w ui raw _ Hraw Hsel).
    unfold content_calls, log. cbn [fst]. do 6 right. now left.
  - apply decode_encode_utf8.
  - rewrite to_csv_selected.
    rewrite (@read_csv_rows (linesep w) _ Hsep (export_records_not_empty w _ _)).
    unfold export_records, header_fields.
    cbn [first_level index index_label]. now rewrite Hrows.
Qed.

Lemma table_without_rows_exports_its_header_witness :
  exists (csv_file : list Byte.byte) (csv_text : string),
    In (expander_download_button "Preview Data" "Download selected as CSV" csv_file
          (ticker reversed_dates ++ " Daily Stock Prices") "text/csv")
       (log (content sample_world reversed_dates)) /\
    decode_utf8 csv_file = Some csv_text /\
    CsvReader.read csv_text = [raw_index_label no_prices :: columns_to_show reversed_dates].
Proof.
  apply (@table_without_rows_exports_its_header sample_world reversed_dates no_prices).
  - left. reflexivity.
  - reflexivity.
  - reflexivity.
  - intros c Hc. exact Hc.
Defined.

End DirectoryAndExport.

(** ** The loaded table *)

Section LoadedTable.

Import App.

Lemma lookup_nodup (cols : list (string * Series)) (name : string) (s : Series) :
  NoDup (map fst cols) -> In (name, s) cols -> lookup cols name = Some s.
Proof.
  induction cols as [ | [name' s'] cols IH ]; cbn [map fst In lookup]; [contradiction|].
  intros Hnd [Heq | Hin].
  - injection Heq as -> ->. now rewrite String.eqb_refl.
  - inversion Hnd as [ | ? ? Hout Hnd' ]; subst.
    destruct (String.eqb_spec name' name) as [->|_]; [|now apply IH].
    exfalso. apply Hout. apply (in_map fst) in Hin. exact Hin.
Qed.

(** [load_data] drops the ticker level of the column labels: when the price
    fields of the provider's columns are distinct, every column is found in
    the loaded table under its price field alone, with its cells unchanged,
    and the table has the provider's rows. *)
Theorem loaded_columns_are_named_by_price_field
    (w : World) (symbol : string) (start finish : date) (raw : RawFrame)
    (field tick : string) (s : Series) :
  yf_download w symbol start finish = Ok raw ->
  NoDup (map (fun c => fst (fst c)) (raw_columns raw)) ->
  In ((field, tick), s) (raw_columns raw) ->
  exists df,
    outcome (load_data w symbol start finish) = Ok df /\
    getitem df field = Ok s /\
    index df = raw_index raw /\
    length (columns df) = length (raw_columns raw) /\
    Frame.empty df = (length (raw_index raw) =? 0) || (length (raw_columns raw) =? 0).
Proof.
  intros Hraw Hnd Hin. exists (first_level raw).
  rewrite (@load_data_ok w symbol start finish raw Hraw).
  split; [reflexivity|]. split.
  - unfold getitem, first_level. cbn [columns].
    rewrite (@lookup_nodup _ field s); [reflexivity | |].
    + now rewrite map_map.
    + apply (in_map (fun c => (fst (fst c), snd c))) in Hin. exact Hin.
  - split; [reflexivity|]. unfold Frame.empty, first_level. cbn [columns index].
    rewrite length_map. split; reflexivity.
Qed.

Lemma loaded_columns_are_named_by_price_field_witness :
  exists df,
    outcome (load_data sample_world "MMM" (mk_date 2023 1 1) (mk_date 2023 1 10)) = Ok df /\
    getitem df "Close" = Ok prices3 /\
    index df = raw_index sample_prices /\
    length (columns df) = length (raw_columns sample_prices) /\
    Frame.empty df
    = (length (raw_index sample_prices) =? 0) || (length (raw_columns sample_prices) =? 0).
Proof.
  apply (@loaded_columns_are_named_by_price_field sample_world "MMM"%string
           (mk_date 2023 1 1) (mk_date 2023 1 10) sample_prices
           "Close"%string "MMM"%string prices3).
  - reflexivity.
  - cbn. repeat constructor; cbn; intros H;
      repeat (destruct H as [H|H]; [discriminate H|]); exact H.
  - now left.
Defined.

End LoadedTable.
